(** * Krane: deployment reconciliation, health polling and the docker port

    A shallow embedding of the packages of the repository:

    - [Docker]      src/docker/docker.go  (module-wide client, container and
                    network calls, image reference formatting);
    - [Service]     src/unnamed/part_000  (the workflow steps that pull,
                    create, start and poll the health of new containers);
    - [Deployment]  src/internal/deployment/deployment.go  (the five
                    asynchronous deployment actions and their jobs), with
                    [DeploymentExist] for its [Exist];
    - [Middlewares] src/internal/proxy/middlewares/middlewares.go  (the
                    redirect labels of a deployment);
    - [Api]         src/internal/api/api.go  (the route table).

    Go values of type [error] are [option string] ([None] is [nil]); a Go
    function returning [(T, error)] returns a pair, with the zero value of
    [T] next to a non-nil error exactly where the source returns it. *)

From Stdlib Require Import ZArith.
From stdpp Require Import gmap strings list.

Open Scope string_scope.
Open Scope list_scope.

(** Go's [error] interface, restricted to what the code observes: nil or a
    message. *)
Abbreviation error := (option string).
Abbreviation nil := (@None string).

(** [fmt.Errorf] with a constant format string. *)
Definition Errorf (msg : string) : error := Some msg.


(* ===================================================================== *)
(** * Calls to collaborators                                              *)
(* ===================================================================== *)

(** The packages below call collaborators whose code lies outside them
    (container runtime, store, queue, clock, logger).  Such a call is a
    constructor of a family [Eff], indexed by the type of what comes back;
    a [Port] says how the outside answers.  A run records every call with
    its answer, oldest first. *)
Module Effects.

Section WithEffects.

Context {Eff : Type → Type}.

Inductive Event :=
| Did (A : Type) (call : Eff A) (answer : A).

Record Port := {
  State : Type;
  answer : ∀ A, Eff A → State → A * State
}.

Context (port : Port).

Record World := {
  outside : State port;
  trace : list Event
}.

(** A Go call either returns or panics (failed type assertion). *)
Inductive Outcome (A : Type) :=
| Returns (a : A) (w : World)
| Panics (msg : string).

Definition M (A : Type) := World → Outcome A.

#[global] Instance M_ret : MRet M := λ A a w, Returns A a w.
#[global] Instance M_bind : MBind M := λ A B k m w,
  match m w with
  | Returns _ a w' => k a w'
  | Panics _ msg => Panics B msg
  end.

Definition perform {A} (e : Eff A) : M A := λ w,
  let '(a, s') := answer port A e (outside w) in
  Returns A a {| outside := s'; trace := trace w ++ [Did A e a] |}.

Definition panic {A} (msg : string) : M A := λ _, Panics A msg.

(** [replay s evs s']: answering the calls of [evs] one after the other
    takes the outside from [s] to [s'] and gives the recorded answers. *)
Fixpoint replay (s : State port) (evs : list Event) (s' : State port) : Prop :=
  match evs with
  | [] => s' = s
  | Did A e a :: rest => ∃ s1, answer port A e s = (a, s1) ∧ replay s1 rest s'
  end.

(** [extends w evs w']: the run from [w] to [w'] made exactly the calls of
    [evs], in that order. *)
Definition extends (w : World) (evs : list Event) (w' : World) : Prop :=
  trace w' = trace w ++ evs ∧ replay (outside w) evs (outside w').

(** [always P m]: from every world [m] returns, and every call it makes
    (with its answer) satisfies [P]. *)
Definition always (P : Event → Prop) {A} (m : M A) : Prop :=
  ∀ w, ∃ a w' evs, m w = Returns A a w' ∧ extends w evs w' ∧ Forall P evs.

End WithEffects.

Arguments Event : clear implicits.
Arguments Port : clear implicits.
Arguments Did {Eff A} call answer.
Arguments Returns {Eff port A} a w.
Arguments Panics {Eff port A} msg.
Arguments perform {Eff port A} e.
Arguments replay {Eff} port s evs s'.
Arguments extends {Eff} port w evs w'.
Arguments always {Eff} port P {A} m.
Arguments panic {Eff port A} msg.

End Effects.

(* ===================================================================== *)
(** * Fresh identifiers for the engines the packages are run against      *)
(* ===================================================================== *)

Module Names.

Fixpoint letters (n : nat) : string :=
  match n with
  | O => ""
  | S n' => "n" +:+ letters n'
  end.

(** A string longer than every string of [ids]. *)
Definition freshID (ids : list string) : string :=
  letters (S (max_list (String.length <$> ids))).

End Names.

(* ===================================================================== *)
(** * src/docker/docker.go                                                *)
(* ===================================================================== *)

Module Docker.

(** ** The docker SDK types the package hands to the client *)

Inductive Context : Set := Background.

(** [io.Reader] results are nilable. *)
Definition Reader := option string.

(** [time.Duration] counts nanoseconds. *)
Definition Duration := Z.
Definition Second : Duration := 1000000000%Z.

Record ImagePullOptions := { RegistryAuth : string }.

Record PortBinding := { HostIP : string; HostPort : string }.

(** [nat.Port] is a string such as ["80/tcp"]. *)
Definition Port := string.

Record HostConfig := {
  PortBindings : gmap Port (list PortBinding);
  AutoRemove : bool
}.

Record ContainerConfig := {
  Hostname : string;
  Image : string;
  Env : list string;
  Labels : gmap string string
}.

Record EndpointSettings := { NetworkID : string }.

Record NetworkingConfig := {
  EndpointsConfig : gmap string EndpointSettings
}.

Module ContainerCreateCreatedBody.
Record t := { ID : string; Warnings : list string }.
Definition zero : t := {| ID := ""; Warnings := [] |}.
End ContainerCreateCreatedBody.

(** Option structs the package always passes as their zero value. *)
Inductive ContainerStartOptions : Set := ContainerStartOptions_zero.
Inductive ContainerRemoveOptions : Set := ContainerRemoveOptions_zero.
Inductive ContainerListOptions : Set := ContainerListOptions_zero.
Inductive NetworkListOptions : Set := NetworkListOptions_zero.

Module Container.
Record t := { ID : string; Names : list string; State : string }.
End Container.

Module ContainerStats.
Record t := { Body : Reader; OSType : string }.
Definition zero : t := {| Body := None; OSType := "" |}.
End ContainerStats.

Module NetworkCreate.
Record t := { Driver : string; CheckDuplicate : bool }.
End NetworkCreate.

Module NetworkCreateResponse.
Record t := { ID : string; Warning : string }.
Definition zero : t := {| ID := ""; Warning := "" |}.
End NetworkCreateResponse.

Module NetworkResource.
Record t := { Name : string; ID : string }.
Definition zero : t := {| Name := ""; ID := "" |}.
End NetworkResource.

Record ImageRemoveOptions := { Force : bool; PruneChildren : bool }.

Module ImageDelete.
Record t := { Deleted : string; Untagged : string }.
End ImageDelete.

Record ContainerLogsOptions := {
  ShowStdout : bool;
  ShowStderr : bool;
  Timestamps : bool;
  Follow : bool;
  Tail : string
}.

(** ** Calls on [*client.Client]

    One constructor per client method the package uses, indexed by the type
    of the value the method returns next to its error. *)
Inductive Request : Type → Type :=
| ImagePull (ctx : Context) (image : string) (options : ImagePullOptions)
    : Request Reader
| ContainerCreate (ctx : Context) (config : ContainerConfig)
    (hostConfig : HostConfig) (networkingConfig : NetworkingConfig)
    (containerName : string)
    : Request ContainerCreateCreatedBody.t
| ContainerStart (ctx : Context) (containerID : string)
    (options : ContainerStartOptions)
    : Request unit
| NetworkConnect (ctx : Context) (networkID containerID : string)
    (config : EndpointSettings)
    : Request unit
| ContainerStop (ctx : Context) (containerID : string) (timeout : Duration)
    : Request unit
| ContainerRemove (ctx : Context) (containerID : string)
    (options : ContainerRemoveOptions)
    : Request unit
| ContainerList (ctx : Context) (options : ContainerListOptions)
    : Request (list Container.t)
| ContainerStatsReq (ctx : Context) (containerID : string) (stream : bool)
    : Request ContainerStats.t
| NetworkCreateReq (ctx : Context) (name : string) (options : NetworkCreate.t)
    : Request NetworkCreateResponse.t
| NetworkList (ctx : Context) (options : NetworkListOptions)
    : Request (list NetworkResource.t)
| ImageRemove (ctx : Context) (imageID : string) (options : ImageRemoveOptions)
    : Request (list ImageDelete.t)
| ContainerLogs (ctx : Context) (containerID : string)
    (options : ContainerLogsOptions)
    : Request Reader.

(** A request with its result type hidden, for the record of what was sent. *)
Inductive Sent :=
| Call (A : Type) (r : Request A).
Arguments Call {A} r.

(** [*client.Client]: nil until [New] stores one. *)
Record Client := { Host : string }.

(** The docker SDK and the engine behind it, as far as the package can
    observe them: how the engine answers each request, how a client is
    built from the environment, and [nat.NewPort]. *)
Record Sdk := {
  Engine : Type;
  serve : ∀ A, Request A → Engine → (A * error) * Engine;
  NewEnvClient : Engine → option Client * error;
  NewPort : string → string → Port * error
}.

Section Package.

Context (sdk : Sdk).

(** Package state: the module-wide [dkrClient], the engine, and every
    request sent so far (oldest first). *)
Record World := {
  dkrClient : option Client;
  engine : Engine sdk;
  wire : list Sent
}.

(** A call either returns, or panics (nil pointer dereference). *)
Inductive Outcome (A : Type) :=
| Returns (a : A) (w : World)
| Panics (msg : string).
Arguments Returns {A} a w.
Arguments Panics {A} msg.

Definition M (A : Type) := World → Outcome A.

#[global] Instance M_ret : MRet M := λ A a w, Returns a w.
#[global] Instance M_bind : MBind M := λ A B k m w,
  match m w with
  | Returns a w' => k a w'
  | Panics msg => Panics msg
  end.

(** A method call through the client pointer [c]. *)
Definition invoke {A} (c : option Client) (r : Request A) : M (A * error) :=
  λ w,
    match c with
    | None => Panics "invalid memory address or nil pointer dereference"
    | Some _ =>
        let '(answer, e') := serve sdk A r (engine w) in
        Returns answer
          {| dkrClient := dkrClient w; engine := e'; wire := wire w ++ [Call r] |}
    end.

(** [New]: create docker client. *)
Definition New : M (option Client * error) := λ w,
  match dkrClient w with
  | Some c => Returns (Some c, nil) w
  | None =>
      let '(client, err) := NewEnvClient sdk (engine w) in
      match err with
      | Some e => Returns (None, Some e) w
      | None =>
          Returns (client, nil)
            {| dkrClient := client; engine := engine w; wire := wire w |}
      end
  end.

(** [PullImage]: from docker registry. *)
Definition PullImage (ctx : Context) (image : string) : M (Reader * error) := λ w,
  match dkrClient w with
  | None => Returns (None, Errorf "docker client not initialized") w
  | Some _ =>
      let options := {| RegistryAuth := "" |} in
      invoke (dkrClient w) (ImagePull ctx image options) w
  end.

(** [CreateContainer]: create docker container. *)
Definition CreateContainer (ctx : Context) (image deploymentName containerName
    networkID hPort cPort : string)
  : M (ContainerCreateCreatedBody.t * error) := λ w,
  match dkrClient w with
  | None =>
      Returns (ContainerCreateCreatedBody.zero,
               Errorf "docker client not initialized") w
  | Some _ =>
      (* Configure Host Port *)
      let hostBinding := {| HostIP := "0.0.0.0"; HostPort := hPort |} in
      (* Configure Container Port *)
      let '(containerPort, err) := NewPort sdk "tcp" cPort in
      match err with
      | Some e => Returns (ContainerCreateCreatedBody.zero, Some e) w
      | None =>
          (* Bind host-to-container ports *)
          let portBinding : gmap Port (list PortBinding) :=
            {[ containerPort := [hostBinding] ]} in
          (* Setup host conf *)
          let hostConf :=
            {| PortBindings := portBinding; AutoRemove := false |} in
          (* Setup container conf *)
          let containerConf :=
            {| Hostname := "bsn";
               Image := image;
               Env := ["TEST_ENV=pipi"];
               Labels := {[ "deployment.name" := deploymentName ]} |} in
          (* Setup networking conf *)
          let endpointConf : gmap string EndpointSettings :=
            {[ "krane" := {| NetworkID := networkID |} ]} in
          let networkConf := {| EndpointsConfig := endpointConf |} in
          invoke (dkrClient w)
            (ContainerCreate ctx containerConf hostConf networkConf containerName) w
      end
  end.

(** [StartContainer]: start docker container. *)
Definition StartContainer (ctx : Context) (containerID : string) : M error := λ w,
  match dkrClient w with
  | None => Returns (Errorf "docker client not initialized") w
  | Some _ =>
      let options := ContainerStartOptions_zero in
      ('(_, err) ← invoke (dkrClient w) (ContainerStart ctx containerID options);
       mret err) w
  end.

(** [ConnectContainerToNetwork]: connect a container to a network. *)
Definition ConnectContainerToNetwork (ctx : Context) (networkID containerID : string)
  : M error := λ w,
  match dkrClient w with
  | None => Returns (Errorf "docker client not initialized") w
  | Some _ =>
      let config := {| NetworkID := networkID |} in
      ('(_, err) ← invoke (dkrClient w)
                     (NetworkConnect ctx networkID containerID config);
       mret err) w
  end.

(** [StopContainer]: stop docker container. *)
Definition StopContainer (ctx : Context) (containerID : string) : M error := λ w,
  match dkrClient w with
  | None => Returns (Errorf "docker client not initialized") w
  | Some _ =>
      let timeout := (60 * Second)%Z in
      ('(_, err) ← invoke (dkrClient w) (ContainerStop ctx containerID timeout);
       mret err) w
  end.

(** [RemoveContainer]: remove docker container. *)
Definition RemoveContainer (ctx : Context) (containerID : string) : M error := λ w,
  match dkrClient w with
  | None => Returns (Errorf "docker client not initialized") w
  | Some _ =>
      let options := ContainerRemoveOptions_zero in
      ('(_, err) ← invoke (dkrClient w) (ContainerRemove ctx containerID options);
       mret err) w
  end.

(** [ListContainers]: get all containers. *)
Definition ListContainers (ctx : Context) : M (list Container.t * error) := λ w,
  match dkrClient w with
  | None => Returns ([], Errorf "docker client not initialized") w
  | Some _ =>
      let options := ContainerListOptions_zero in
      invoke (dkrClient w) (ContainerList ctx options) w
  end.

(** [GetContainerStatus]: get the status of a container. *)
Definition GetContainerStatus (ctx : Context) (containerID : string) (stream : bool)
  : M (ContainerStats.t * error) := λ w,
  match dkrClient w with
  | None => Returns (ContainerStats.zero, Errorf "docker client not initialized") w
  | Some _ => invoke (dkrClient w) (ContainerStatsReq ctx containerID stream) w
  end.

(** The loop of [GetNetworkByName]: [kNet] keeps its value unless a network
    carries the name, and the first such network ends the loop. *)
Fixpoint firstNamed (name : string) (nets : list NetworkResource.t)
    (kNet : NetworkResource.t) : NetworkResource.t :=
  match nets with
  | [] => kNet
  | net :: rest =>
      if String.eqb (NetworkResource.Name net) name then net
      else firstNamed name rest kNet
  end.

(** [GetNetworkByName]: find a network by name on this docker host. *)
Definition GetNetworkByName (ctx : Context) (name : string)
  : M (NetworkResource.t * error) := λ w,
  match dkrClient w with
  | None => Returns (NetworkResource.zero, Errorf "docker client not initialized") w
  | Some _ =>
      (* Get all the networks *)
      let options := NetworkListOptions_zero in
      ('(nets, err) ← invoke (dkrClient w) (NetworkList ctx options);
       match err with
       | Some e => mret (NetworkResource.zero, Some e)
       | None =>
           (* Iterate the networks and check if any match *)
           let kNet := firstNamed name nets NetworkResource.zero in
           mret (kNet, nil)
       end) w
  end.

(** [CreateBridgeNetwork]: creates docker bridge network with a given name. *)
Definition CreateBridgeNetwork (ctx : Context) (name : string)
  : M (NetworkCreateResponse.t * error) := λ w,
  match dkrClient w with
  | None =>
      Returns (NetworkCreateResponse.zero, Errorf "docker client not initialized") w
  | Some _ =>
      (* Check if krane network already exists *)
      ('(kNet, err) ← GetNetworkByName ctx name;
       match err with
       | Some e => mret (NetworkCreateResponse.zero, Some e)
       | None =>
           if negb (String.eqb (NetworkResource.ID kNet) "") then
             mret ({| NetworkCreateResponse.ID := NetworkResource.ID kNet;
                      NetworkCreateResponse.Warning := "" |}, nil)
           else
             (* If no existing network, create it *)
             let options := {| NetworkCreate.Driver := "bridge";
                               NetworkCreate.CheckDuplicate := true |} in
             λ w', invoke (dkrClient w') (NetworkCreateReq ctx name options) w'
       end : M (NetworkCreateResponse.t * error)) w
  end.

(** [RemoveImage]: deletes docker image. *)
Definition RemoveImage (ctx : Context) (imageID : string)
  : M (list ImageDelete.t * error) := λ w,
  match dkrClient w with
  | None => Returns ([], Errorf "docker client not initialized") w
  | Some _ =>
      let options := {| Force := false; PruneChildren := false |} in
      invoke (dkrClient w) (ImageRemove ctx imageID options) w
  end.

(** [ReadContainerLogs]. *)
Definition ReadContainerLogs (ctx : Context) (containerID : string)
  : M (Reader * error) := λ w,
  match dkrClient w with
  | None => Returns (None, Errorf "docker client not initialized") w
  | Some _ =>
      let options := {| ShowStdout := true; ShowStderr := true;
                        Timestamps := true; Follow := true; Tail := "50" |} in
      invoke (dkrClient w) (ContainerLogs ctx containerID options) w
  end.

End Package.

Arguments Returns {sdk A} a w.
Arguments Panics {sdk A} msg.

(** [FormatImageSourceURL]: format into appropriate docker image url. *)
Definition FormatImageSourceURL (repo imageName tag : string) : string :=
  let tag := if String.eqb tag "" then "latest" else tag in
  repo +:+ "/" +:+ imageName +:+ ":" +:+ tag.

End Docker.

(* ===================================================================== *)
(** * src/unnamed/part_000 (package service)                              *)
(* ===================================================================== *)

Module Service.

Import Effects.

(** Modelled from the spec: [config.Kconfig] is declared outside the file;
    the fields are the ones the file reads. *)
Record Kconfig := {
  Name : string;
  Registry : string;
  Image : string;
  Tag : string
}.

(** Modelled from the spec: [container.Kcontainer] is declared outside the
    file, which only passes its values around and calls their methods. *)
Record Kcontainer := { ID : string }.

(** [job.Args] is [map[string]interface{}]; these are the dynamic types the
    file stores and asserts. *)
Inductive Value :=
| VKconfig (cfg : Kconfig)
| VKcontainers (newContainers : list Kcontainer)
| VString (s : string).

Inductive Effect : Type → Type :=
| DockerPullImage (ctx : Docker.Context) (registry image tag : string)
    : Effect error
| ContainerCreate (cfg : Kconfig) : Effect (Kcontainer * error)
| ContainerStart (c : Kcontainer) : Effect error
| ContainerOk (c : Kcontainer) : Effect (bool * error)
| Sleep (d : Docker.Duration) : Effect unit
| SecretsCreateCollection (name : string) : Effect error
| JobCreateCollection (name : string) : Effect error
| Debugf (format : string) (n : Z) : Effect unit.

Section Steps.

Context (port : Port Effect).

Abbreviation M := (M port).

(** A step receives the job's argument map and may store into it; the map
    it leaves behind is returned next to the error. *)
Definition stepFn := gmap string Value → M (gmap string Value * error).

(** [args["config"].(config.Kconfig)] *)
Definition assertKconfig (args : gmap string Value) : M Kconfig :=
  match args !! "config" with
  | Some (VKconfig cfg) => mret cfg
  | _ => panic "interface conversion: interface {} is not config.Kconfig"
  end.

(** [args["newContainers"].( *[]container.Kcontainer)] *)
Definition assertKcontainers (args : gmap string Value) : M (list Kcontainer) :=
  match args !! "newContainers" with
  | Some (VKcontainers cs) => mret cs
  | _ => panic "interface conversion: interface {} is not *[]container.Kcontainer"
  end.

Definition pullImage : stepFn := λ args,
  cfg ← assertKconfig args;
  let ctx := Docker.Background in
  err ← perform (DockerPullImage ctx (Registry cfg) (Image cfg) (Tag cfg));
  mret (args, err).

(** The loop of [createContainers], with [n] iterations left. *)
Fixpoint createLoop (cfg : Kconfig) (n : nat) (newContainers : list Kcontainer)
  : M (list Kcontainer * error) :=
  match n with
  | O => mret (newContainers, nil)
  | S n' =>
      '(newContainer, err) ← perform (ContainerCreate cfg);
      match err with
      | Some e => mret (newContainers, Some e)
      | None => createLoop cfg n' (newContainers ++ [newContainer])
      end
  end.

Definition createContainers : stepFn := λ args,
  cfg ← assertKconfig args;
  (* TODO: move this up to the config when we
     can handle managing multiple containers for single namespace *)
  let scale := 1%Z in
  '(newContainers, err) ← createLoop cfg (Z.to_nat scale) [];
  match err with
  | Some e => mret (args, Some e)
  | None =>
      _ ← perform (Debugf "Created %d containers" (Z.of_nat (length newContainers)));
      mret (<["newContainers" := VKcontainers newContainers]> args, nil)
  end.

(** The loop of [startContainers]. *)
Fixpoint startLoop (cs : list Kcontainer) (containersStarted : Z) : M (Z * error) :=
  match cs with
  | [] => mret (containersStarted, nil)
  | newContainer :: rest =>
      err ← perform (ContainerStart newContainer);
      match err with
      | Some e => mret (containersStarted, Some e)
      | None => startLoop rest (containersStarted + 1)%Z
      end
  end.

Definition startContainers : stepFn := λ args,
  newContainers ← assertKcontainers args;
  '(containersStarted, err) ← startLoop newContainers 0%Z;
  match err with
  | Some e => mret (args, Some e)
  | None =>
      _ ← perform (Debugf "Started %d containers" containersStarted);
      mret (args, nil)
  end.

(** The values [i] takes in [for i := 0; i <= pollRetry; i++]. *)
Definition attempts (pollRetry : Z) : list Z :=
  Z.of_nat <$> seq 0 (Z.to_nat (pollRetry + 1)).

(** [fmt.Errorf("container health unstable %v", err)]: a nil error prints
    as [<nil>]. *)
Definition unstable (err : error) : error :=
  Errorf ("container health unstable " +:+ default "<nil>" err).

(** The inner loop of [checkNewContainersHealth] over the remaining values
    of [i]: [None] when the loop is left by [break] or runs out, an error
    when the function returns from inside it. *)
Fixpoint pollLoop (pollRetry : Z) (newContainer : Kcontainer) (ivals : list Z)
  : M error :=
  match ivals with
  | [] => mret nil
  | i :: rest =>
      let expBackOff := (10 * i)%Z in
      _ ← perform (Sleep (expBackOff * Docker.Second)%Z);
      '(ok, err) ← perform (ContainerOk newContainer);
      match err with
      | Some _ =>
          if (i =? pollRetry)%Z then mret (unstable err)
          else pollLoop pollRetry newContainer rest
      | None =>
          if negb ok then
            if (i =? pollRetry)%Z then mret (unstable err)
            else pollLoop pollRetry newContainer rest
          else
            (* If here container health should be healthy *)
            mret nil
      end
  end.

(** The outer loop of [checkNewContainersHealth]. *)
Fixpoint healthLoop (pollRetry : Z) (cs : list Kcontainer) : M error :=
  match cs with
  | [] => mret nil
  | newContainer :: rest =>
      err ← pollLoop pollRetry newContainer (attempts pollRetry);
      match err with
      | Some e => mret (Some e)
      | None => healthLoop pollRetry rest
      end
  end.

(** [checkNewContainersHealth] for a given value of its local [pollRetry]. *)
Definition checkNewContainersHealthWith (pollRetry : Z) : stepFn := λ args,
  newContainers ← assertKcontainers args;
  err ← healthLoop pollRetry newContainers;
  mret (args, err).

Definition checkNewContainersHealth : stepFn :=
  let pollRetry := 10%Z in
  checkNewContainersHealthWith pollRetry.

Definition createSecretsCollection : stepFn := λ args,
  cfg ← assertKconfig args;
  err ← perform (SecretsCreateCollection (Name cfg));
  mret (args, err).

Definition createJobsCollection : stepFn := λ args,
  cfg ← assertKconfig args;
  err ← perform (JobCreateCollection (Name cfg));
  mret (args, err).

End Steps.

End Service.

(* ===================================================================== *)
(** * src/internal/deployment/deployment.go                               *)
(* ===================================================================== *)

Module Deployment.

Import Effects.

Inductive DeploymentAction :=
| RunDeploymentAction
| DeleteDeploymentAction
| StopContainersAction
| StartContainersAction
| RestartContainersAction.

(** The string each action constant stands for. *)
Definition action_string (a : DeploymentAction) : string :=
  match a with
  | RunDeploymentAction => "RUN_DEPLOYMENT"
  | DeleteDeploymentAction => "DELETE_DEPLOYMENT"
  | StopContainersAction => "STOP_CONTAINERS"
  | StartContainersAction => "START_CONTAINERS"
  | RestartContainersAction => "RESTART_CONTAINERS"
  end.

(** Modelled from the spec: the [Config] struct is declared in another file
    of the package; these are the fields deployment.go reads. *)
Record Config := {
  Name : string;
  Registry : string;
  Image : string;
  Tag : string;
  Scale : Z
}.

Definition Config_zero : Config :=
  {| Name := ""; Registry := ""; Image := ""; Tag := ""; Scale := 0 |}.

(** Modelled from the spec: [KraneContainer] is declared in another file of
    the package; a value names one container of the runtime and the
    deployment its label gives. *)
Module KraneContainer.
Record t := { ID : string; Deployment : string }.
End KraneContainer.

(** The five argument structs the jobs carry behind [interface{}]. *)
Inductive JobArgs :=
| RunDeploymentJobArgs (config : Config)
    (ContainersToRemove : list KraneContainer.t)
| DeleteDeploymentJobArgs (deployment : string)
| StartContainersJobArgs (deployment : string)
| StopContainersJobArgs (deployment : string)
| RestartContainersJobArgs (config : Config)
    (ContainersToRemove : list KraneContainer.t).

(** [job.Job] without its three function fields, which are given per action
    by the [_Setup], [_Run] and [_Finally] definitions below.  [Type_] holds
    the action whose string the source stores in [Type]. *)
Module Job.
Record t := {
  ID : string;
  Deployment : string;
  Type_ : DeploymentAction;
  RetryPolicy : N;
  Args : JobArgs
}.
End Job.

(** Modelled from the spec: [constants.EnvDeploymentRetryPolicy] names the
    environment variable of the default retry policy. *)
Definition EnvDeploymentRetryPolicy : string := "KRANE_DEPLOYMENT_RETRY_POLICY".

(** An argument of a log format: [%s], [%d] or [%v] of an error. *)
Inductive LogArg :=
| AStr (s : string)
| AInt (z : Z)
| AErr (e : string).

(** The collaborators of deployment.go. *)
Inductive Effect : Type → Type :=
| GetDeploymentConfig (deployment : string) : Effect (Config * error)
| DeleteDeploymentConfig (deployment : string) : Effect error
| CreateSecretsCollection (deployment : string) : Effect error
| DeleteSecretsCollection (deployment : string) : Effect error
| CreateJobsCollection (deployment : string) : Effect error
| DeleteJobsCollection (deployment : string) : Effect error
| GetContainersByDeployment (deployment : string)
    : Effect (list KraneContainer.t * error)
| DockerPullImage (registry image tag : string) : Effect error
| ContainerCreate (config : Config) : Effect (KraneContainer.t * error)
| ContainerStart (c : KraneContainer.t) : Effect error
| ContainerStop (c : KraneContainer.t) : Effect error
| ContainerRemove (c : KraneContainer.t) : Effect error
| RetriableContainerHealthCheck (containers : list KraneContainer.t)
    (retries : Z) : Effect error
| UuidGenerate : Effect string
| UIntEnv (key : string) : Effect N
| EnqueuerEnqueue (j : Job.t) : Effect (Job.t * error)
| Go_enqueue (j : Job.t) : Effect unit
| LoggerErrorf (format : string) (args : list LogArg) : Effect unit
| LoggerDebugf (format : string) (args : list LogArg) : Effect unit.

Section Package.

Context (port : Port Effect).

Abbreviation M := (M port).

(** [enqueue] queues up a deployment job for processing; it has no result. *)
Definition enqueue (j : Job.t) : M unit :=
  '(queuedJob, err) ← perform (EnqueuerEnqueue j);
  match err with
  | Some e =>
      perform (LoggerErrorf "Error enqueuing deployment job %v" [AErr e])
  | None =>
      perform (LoggerDebugf "Deployment job %s queued for processing"
                 [AStr (Job.Deployment queuedJob)])
  end.

(** ** Loops shared by the job phases *)

(** [for i := 0; i < config.Scale; i++ { c, err := ContainerCreate(config) ... }]
    with [n] iterations left. *)
Fixpoint createLoop (config : Config) (n : nat)
    (containersCreated : list KraneContainer.t)
  : M (list KraneContainer.t * error) :=
  match n with
  | O => mret (containersCreated, nil)
  | S n' =>
      '(c, err) ← perform (ContainerCreate config);
      match err with
      | Some e =>
          _ ← perform (LoggerErrorf "unable to create container %v" [AErr e]);
          mret (containersCreated, Some e)
      | None => createLoop config n' (containersCreated ++ [c])
      end
  end.

(** [for _, c := range containersCreated { c.Start() ...; append }] *)
Fixpoint startLoop (cs : list KraneContainer.t)
    (containersStarted : list KraneContainer.t)
  : M (list KraneContainer.t * error) :=
  match cs with
  | [] => mret (containersStarted, nil)
  | c :: rest =>
      err ← perform (ContainerStart c);
      match err with
      | Some e =>
          _ ← perform (LoggerErrorf "unable to start container %v" [AErr e]);
          mret (containersStarted, Some e)
      | None => startLoop rest (containersStarted ++ [c])
      end
  end.

(** A [range] loop whose body calls one method of the container, logs and
    returns the error if there is one. *)
Fixpoint rangeLoop (method : KraneContainer.t → Effect error)
    (complaint : string) (cs : list KraneContainer.t) : M error :=
  match cs with
  | [] => mret nil
  | c :: rest =>
      err ← perform (method c);
      match err with
      | Some e =>
          _ ← perform (LoggerErrorf complaint [AErr e]);
          mret (Some e)
      | None => rangeLoop method complaint rest
      end
  end.

(** The part [Run] and [RestartContainers] share in their run phase:
    create, start, health check. *)
Definition createStartCheck (config : Config) : M error :=
  (* create containers *)
  '(containersCreated, err) ← createLoop config (Z.to_nat (Scale config)) [];
  match err with
  | Some e => mret (Some e)
  | None =>
      _ ← perform (LoggerDebugf "Created %d container(s) for deployment %s"
                     [AInt (Z.of_nat (length containersCreated)); AStr (Name config)]);
      (* start containers *)
      '(containersStarted, err) ← startLoop containersCreated [];
      match err with
      | Some e => mret (Some e)
      | None =>
          _ ← perform (LoggerDebugf "Started %d container(s) for deployment %s"
                         [AInt (Z.of_nat (length containersStarted)); AStr (Name config)]);
          let retries := 10%Z in
          err ← perform (RetriableContainerHealthCheck containersStarted retries);
          match err with
          | Some e =>
              _ ← perform (LoggerErrorf "containers did not pass health check %v"
                             [AErr e]);
              mret (Some e)
          | None => mret nil
          end
      end
  end.

(** ** Run *)

Definition Run_Setup (args : JobArgs) : M (JobArgs * error) :=
  match args with
  | RunDeploymentJobArgs config toRemove =>
      let deploymentName := Name config in
      (* ensure secrets collections *)
      err ← perform (CreateSecretsCollection deploymentName);
      match err with
      | Some e =>
          _ ← perform (LoggerErrorf "unable to create secrets collection %v" [AErr e]);
          mret (args, Some e)
      | None =>
          (* ensure jobs collections *)
          err ← perform (CreateJobsCollection deploymentName);
          match err with
          | Some e =>
              _ ← perform (LoggerErrorf "unable to create jobs collection %v" [AErr e]);
              mret (args, Some e)
          | None =>
              (* get containers (if any) currently part of this deployment *)
              '(containers, err) ← perform (GetContainersByDeployment deploymentName);
              match err with
              | Some e =>
                  _ ← perform (LoggerErrorf "unable to get containers %v" [AErr e]);
                  mret (args, Some e)
              | None =>
                  (* update job arguments to process them for deletion later on *)
                  mret (RunDeploymentJobArgs config containers, nil)
              end
          end
      end
  | _ => panic "interface conversion: interface {} is not *RunDeploymentJobArgs"
  end.

Definition Run_Run (args : JobArgs) : M error :=
  match args with
  | RunDeploymentJobArgs config _ =>
      (* pull image *)
      _ ← perform (LoggerDebugf "Pulling image for deployment %s" [AStr (Name config)]);
      err ← perform (DockerPullImage (Registry config) (Image config) (Tag config));
      match err with
      | Some e =>
          _ ← perform (LoggerErrorf "unable to pull image %v" [AErr e]);
          mret (Some e)
      | None => createStartCheck config
      end
  | _ => panic "interface conversion: interface {} is not *RunDeploymentJobArgs"
  end.

Definition Run_Finally (args : JobArgs) : M error :=
  match args with
  | RunDeploymentJobArgs _ ContainersToRemove =>
      rangeLoop ContainerRemove "unable to remove container %v" ContainersToRemove
  | _ => panic "interface conversion: interface {} is not *RunDeploymentJobArgs"
  end.

(** [Run] runs the current configuration for a deployment, creating or
    re-creating container resources. *)
Definition Run (deployment : string) : M error :=
  '(config, err) ← perform (GetDeploymentConfig deployment);
  match err with
  | Some e => mret (Some e)
  | None =>
      id ← perform UuidGenerate;
      retryPolicy ← perform (UIntEnv EnvDeploymentRetryPolicy);
      _ ← perform (Go_enqueue
             {| Job.ID := id;
                Job.Deployment := Name config;
                Job.Type_ := RunDeploymentAction;
                Job.RetryPolicy := retryPolicy;
                Job.Args := RunDeploymentJobArgs config [] |});
      mret nil
  end.

(** ** Delete *)

Definition Delete_Run (args : JobArgs) : M error :=
  match args with
  | DeleteDeploymentJobArgs deploymentName =>
      (* get current containers *)
      '(containers, err) ← perform (GetContainersByDeployment deploymentName);
      match err with
      | Some e =>
          _ ← perform (LoggerErrorf "unable get containers %v" [AErr e]);
          mret (Some e)
      | None =>
          (* remove containers *)
          rangeLoop ContainerRemove "unable to remove container %v" containers
      end
  | _ => panic "interface conversion: interface {} is not DeleteDeploymentJobArgs"
  end.

Definition Delete_Finally (args : JobArgs) : M error :=
  match args with
  | DeleteDeploymentJobArgs deploymentName =>
      (* delete secrets collection *)
      _ ← perform (LoggerDebugf "removing secrets collection for deployment %s"
                     [AStr deploymentName]);
      err ← perform (DeleteSecretsCollection deploymentName);
      match err with
      | Some e =>
          _ ← perform (LoggerErrorf "unable to remove secrets collection %v" [AErr e]);
          mret (Some e)
      | None =>
          (* delete jobs collection *)
          _ ← perform (LoggerDebugf "removing jobs collection for deployment %s"
                         [AStr deploymentName]);
          err ← perform (DeleteJobsCollection deploymentName);
          match err with
          | Some e =>
              _ ← perform (LoggerErrorf "unable to remove jobs collection %v" [AErr e]);
              mret (Some e)
          | None =>
              (* delete deployment configuration *)
              _ ← perform (LoggerDebugf "removing config for deployment %s"
                             [AStr deploymentName]);
              err ← perform (DeleteDeploymentConfig deploymentName);
              match err with
              | Some e =>
                  _ ← perform (LoggerErrorf
                                 "unable to remove deployment configuration %v" [AErr e]);
                  mret (Some e)
              | None => mret nil
              end
          end
      end
  | _ => panic "interface conversion: interface {} is not DeleteDeploymentJobArgs"
  end.

(** [Delete] removes a deployment's containers and configuration, and the
    collections created for the deployment. *)
Definition Delete (deployment : string) : M error :=
  id ← perform UuidGenerate;
  retryPolicy ← perform (UIntEnv EnvDeploymentRetryPolicy);
  _ ← perform (Go_enqueue
         {| Job.ID := id;
            Job.Deployment := deployment;
            Job.Type_ := DeleteDeploymentAction;
            Job.RetryPolicy := retryPolicy;
            Job.Args := DeleteDeploymentJobArgs deployment |});
  mret nil.

(** ** StartContainers and StopContainers *)

Definition StartContainers_Run (args : JobArgs) : M error :=
  match args with
  | StartContainersJobArgs deploymentName =>
      (* get current containers *)
      '(containers, err) ← perform (GetContainersByDeployment deploymentName);
      match err with
      | Some e =>
          _ ← perform (LoggerErrorf "unable to get containers %v" [AErr e]);
          mret (Some e)
      | None =>
          if (length containers =? 0)%nat then
            mret (Errorf ("deployment " +:+ deploymentName +:+
                          " has 0 containers to start"))
          else
            (* start containers *)
            rangeLoop ContainerStart "unable to start container %v" containers
      end
  | _ => panic "interface conversion: interface {} is not StartContainersJobArgs"
  end.

Definition StartContainers (deployment : string) : M error :=
  id ← perform UuidGenerate;
  retryPolicy ← perform (UIntEnv EnvDeploymentRetryPolicy);
  _ ← perform (Go_enqueue
         {| Job.ID := id;
            Job.Deployment := deployment;
            Job.Type_ := StartContainersAction;
            Job.RetryPolicy := retryPolicy;
            Job.Args := StartContainersJobArgs deployment |});
  mret nil.

Definition StopContainers_Run (args : JobArgs) : M error :=
  match args with
  | StopContainersJobArgs deploymentName =>
      (* get current containers *)
      '(containers, err) ← perform (GetContainersByDeployment deploymentName);
      match err with
      | Some e =>
          _ ← perform (LoggerErrorf "unable to get containers %v" [AErr e]);
          mret (Some e)
      | None =>
          if (length containers =? 0)%nat then
            mret (Errorf ("deployment " +:+ deploymentName +:+
                          " has 0 containers to stop"))
          else
            (* stop containers *)
            rangeLoop ContainerStop "unable to stop container %v" containers
      end
  | _ => panic "interface conversion: interface {} is not StopContainersJobArgs"
  end.

Definition StopContainers (deployment : string) : M error :=
  id ← perform UuidGenerate;
  retryPolicy ← perform (UIntEnv EnvDeploymentRetryPolicy);
  _ ← perform (Go_enqueue
         {| Job.ID := id;
            Job.Deployment := deployment;
            Job.Type_ := StopContainersAction;
            Job.RetryPolicy := retryPolicy;
            Job.Args := StopContainersJobArgs deployment |});
  mret nil.

(** ** RestartContainers *)

Definition RestartContainers_Setup (args : JobArgs) : M (JobArgs * error) :=
  match args with
  | RestartContainersJobArgs config toRemove =>
      let deploymentName := Name config in
      (* get current containers (if any) which will be removed after new
         containers are created *)
      '(containers, err) ← perform (GetContainersByDeployment deploymentName);
      match err with
      | Some e =>
          _ ← perform (LoggerErrorf "unable to get containers %v" [AErr e]);
          mret (args, Some e)
      | None => mret (RestartContainersJobArgs config containers, nil)
      end
  | _ => panic "interface conversion: interface {} is not *RestartContainersJobArgs"
  end.

Definition RestartContainers_Run (args : JobArgs) : M error :=
  match args with
  | RestartContainersJobArgs config _ => createStartCheck config
  | _ => panic "interface conversion: interface {} is not *RestartContainersJobArgs"
  end.

Definition RestartContainers_Finally (args : JobArgs) : M error :=
  match args with
  | RestartContainersJobArgs _ ContainersToRemove =>
      rangeLoop ContainerRemove "unable to remove container %v" ContainersToRemove
  | _ => panic "interface conversion: interface {} is not *RestartContainersJobArgs"
  end.

Definition RestartContainers (deployment : string) : M error :=
  '(config, err) ← perform (GetDeploymentConfig deployment);
  match err with
  | Some _ =>
      mret (Errorf ("unable to get configuration for deployment " +:+ deployment))
  | None =>
      id ← perform UuidGenerate;
      retryPolicy ← perform (UIntEnv EnvDeploymentRetryPolicy);
      _ ← perform (Go_enqueue
             {| Job.ID := id;
                Job.Deployment := deployment;
                Job.Type_ := RestartContainersAction;
                Job.RetryPolicy := retryPolicy;
                Job.Args := RestartContainersJobArgs config [] |});
      mret nil
  end.

(** ** The function fields of a job, by action

    [Delete], [StartContainers] and [StopContainers] leave [Setup] nil, and
    the last two leave [Finally] nil as well. *)
Definition Setup (a : DeploymentAction) : option (JobArgs → M (JobArgs * error)) :=
  match a with
  | RunDeploymentAction => Some Run_Setup
  | RestartContainersAction => Some RestartContainers_Setup
  | _ => None
  end.

Definition Run_field (a : DeploymentAction) : JobArgs → M error :=
  match a with
  | RunDeploymentAction => Run_Run
  | DeleteDeploymentAction => Delete_Run
  | StopContainersAction => StopContainers_Run
  | StartContainersAction => StartContainers_Run
  | RestartContainersAction => RestartContainers_Run
  end.

Definition Finally (a : DeploymentAction) : option (JobArgs → M error) :=
  match a with
  | RunDeploymentAction => Some Run_Finally
  | DeleteDeploymentAction => Some Delete_Finally
  | RestartContainersAction => Some RestartContainers_Finally
  | _ => None
  end.

(** ** Goroutines

    [go enqueue(j)] leaves a [Go_enqueue j] event; the goroutine's body is
    [enqueue j], and nothing it computes flows back to the function that
    started it. *)
Definition spawnedBy (ev : Event Effect) : option Job.t :=
  match ev with
  | Did call _ =>
      match call with
      | Go_enqueue j => Some j
      | _ => None
      end
  end.

Definition spawned (t : list (Event Effect)) : list Job.t := omap spawnedBy t.

Fixpoint runGoroutines (js : list Job.t) : M unit :=
  match js with
  | [] => mret tt
  | j :: rest => _ ← enqueue j; runGoroutines rest
  end.

(** Run [action], then let the goroutines it started run to their end. *)
Definition andThenGoroutines {A} (action : M A) : M A := λ w,
  match action w with
  | Returns a w' =>
      (_ ← runGoroutines (spawned (drop (length (trace port w)) (trace port w')));
       mret a) w'
  | Panics msg => Panics msg
  end.

End Package.

End Deployment.

(* ===================================================================== *)
(** * What the docker engine promises about networks                      *)
(* ===================================================================== *)

Module DockerContract.

Import Docker Names.

(** The engine's side of [NetworkList] and [NetworkCreate], for an engine
    whose networks are observed through [networks]: listing reports the
    networks and changes none; a successful create adds one network of the
    requested name under a non-empty ID. *)
Record NetworkContract (sdk : Sdk) (networks : Engine sdk → list NetworkResource.t)
  : Prop := {
  list_reports : ∀ ctx options s l e s',
    serve sdk _ (NetworkList ctx options) s = ((l, e), s') →
    networks s' = networks s ∧ (e = None → l = networks s);
  create_adds : ∀ ctx name options s r s',
    serve sdk _ (NetworkCreateReq ctx name options) s = ((r, None), s') →
    NetworkCreateResponse.ID r ≠ "" ∧
    networks s' = networks s ++
      [{| NetworkResource.Name := name;
          NetworkResource.ID := NetworkCreateResponse.ID r |}]
}.

(** The networks of a given name. *)
Definition named (name : string) (nets : list NetworkResource.t)
  : list NetworkResource.t :=
  filter (λ net, NetworkResource.Name net = name) nets.

(** Whether a request creates a network. *)
Definition createsNetwork (c : Sent) : bool :=
  match c with
  | Call r =>
      match r with
      | NetworkCreateReq _ _ _ => true
      | _ => false
      end
  end.

(** ** An engine to run the package against

    It keeps the networks it was asked to create, names new networks by
    [freshID], and answers every other request with the zero value and no
    error. *)
Definition simServe (A : Type) (r : Request A)
  : list NetworkResource.t → (A * error) * list NetworkResource.t :=
  match r in Request A
        return list NetworkResource.t → (A * error) * list NetworkResource.t with
  | ImagePull _ _ _ => λ s, ((Some "", nil), s)
  | ContainerCreate _ _ _ _ name =>
      λ s, (({| ContainerCreateCreatedBody.ID := name;
                ContainerCreateCreatedBody.Warnings := [] |}, nil), s)
  | ContainerStart _ _ _ => λ s, ((tt, nil), s)
  | NetworkConnect _ _ _ _ => λ s, ((tt, nil), s)
  | ContainerStop _ _ _ => λ s, ((tt, nil), s)
  | ContainerRemove _ _ _ => λ s, ((tt, nil), s)
  | ContainerList _ _ => λ s, (([], nil), s)
  | ContainerStatsReq _ _ _ => λ s, ((ContainerStats.zero, nil), s)
  | NetworkCreateReq _ name _ =>
      λ s,
        let id := freshID (NetworkResource.ID <$> s) in
        (({| NetworkCreateResponse.ID := id;
             NetworkCreateResponse.Warning := "" |}, nil),
         s ++ [{| NetworkResource.Name := name; NetworkResource.ID := id |}])
  | NetworkList _ _ => λ s, ((s, nil), s)
  | ImageRemove _ _ _ => λ s, (([], nil), s)
  | ContainerLogs _ _ _ => λ s, ((Some "", nil), s)
  end.

Definition simSdk : Sdk := {|
  Engine := list NetworkResource.t;
  serve := simServe;
  NewEnvClient := λ _, (Some {| Host := "unix:///var/run/docker.sock" |}, nil);
  NewPort := λ proto port, (port +:+ "/" +:+ proto, nil)
|}.

(** The package after [New], on an engine without networks. *)
Definition ready : World simSdk := {|
  dkrClient := Some {| Host := "unix:///var/run/docker.sock" |};
  engine := ([] : Engine simSdk);
  wire := []
|}.

(** The package before [New]. *)
Definition cold : World simSdk := {|
  dkrClient := None;
  engine := ([] : Engine simSdk);
  wire := []
|}.

(** An SDK like [simSdk] whose [nat.NewPort] rejects every port. *)
Definition noPortSdk : Sdk := {|
  Engine := list NetworkResource.t;
  serve := simServe;
  NewEnvClient := λ _, (Some {| Host := "unix:///var/run/docker.sock" |}, nil);
  NewPort := λ proto port, ("", Some ("invalid port " +:+ port))
|}.

Definition readyNoPort : World noPortSdk := {|
  dkrClient := Some {| Host := "unix:///var/run/docker.sock" |};
  engine := ([] : Engine noPortSdk);
  wire := []
|}.

End DockerContract.

(* ===================================================================== *)
(** * Reading a health-check run                                          *)
(* ===================================================================== *)

Module ServiceRuns.

Import Effects Service.

#[global] Instance Kcontainer_eq_dec : EqDecision Kcontainer.
Proof. solve_decision. Defined.

(** An answer of [Ok()] counts as healthy when it is [(true, nil)]. *)
Definition healthy (a : bool * error) : bool :=
  match a with
  | (ok, None) => ok
  | (_, Some _) => false
  end.

(** Probe attempt [i] on container [c]: sleep [10·i] seconds, then ask. *)
Definition probe (c : Kcontainer) (i : Z) (a : bool * error) : list (Event Effect) :=
  [Did (Sleep (10 * i * Docker.Second)%Z) tt; Did (ContainerOk c) a].

(** Consecutive attempts [i], [i+1], ... on [c], one per answer. *)
Fixpoint schedule (c : Kcontainer) (i : Z) (answers : list (bool * error))
  : list (Event Effect) :=
  match answers with
  | [] => []
  | a :: rest => probe c i a ++ schedule c (i + 1)%Z rest
  end.

(** The events of a whole run: the rounds of the containers, one after the
    other, each starting at attempt 0. *)
Definition rounds_events (rounds : list (Kcontainer * list (bool * error)))
  : list (Event Effect) :=
  flat_map (λ '(c, answers), schedule c 0%Z answers) rounds.

(** A round passed: some unhealthy answers, at most [pollRetry] of them,
    then a healthy one. *)
Definition passed (pollRetry : Z) (answers : list (bool * error)) : Prop :=
  ∃ bad good,
    answers = bad ++ [good] ∧
    (Z.of_nat (length bad) ≤ pollRetry)%Z ∧
    Forall (λ a, healthy a = false) bad ∧
    healthy good = true.

(** A round ran out: [pollRetry + 1] answers, none healthy. *)
Definition exhausted (pollRetry : Z) (answers : list (bool * error)) : Prop :=
  Z.of_nat (length answers) = (pollRetry + 1)%Z ∧
  Forall (λ a, healthy a = false) answers.

(** How often [c] was probed in a trace. *)
Definition isProbeOf (c : Kcontainer) (ev : Event Effect) : bool :=
  match ev with
  | Did call _ =>
      match call with
      | ContainerOk c' => bool_decide (c' = c)
      | _ => false
      end
  end.

Definition probeCount (c : Kcontainer) (t : list (Event Effect)) : nat :=
  length (filter (λ ev, isProbeOf c ev = true) t).

(** ** A runtime whose containers turn healthy late

    The state counts the probes made so far; probe number [late] (from 0)
    is the first healthy one.  Every other call succeeds. *)
Definition lateAnswer (late : nat) (A : Type) (e : Effect A) : nat → A * nat :=
  match e in Effect A return nat → A * nat with
  | DockerPullImage _ _ _ _ => λ n, (nil, n)
  | ContainerCreate cfg => λ n, (({| ID := Name cfg |}, nil), n)
  | ContainerStart _ => λ n, (nil, n)
  | ContainerOk _ => λ n, (((late <=? n)%nat, nil), S n)
  | Sleep _ => λ n, (tt, n)
  | SecretsCreateCollection _ => λ n, (nil, n)
  | JobCreateCollection _ => λ n, (nil, n)
  | Debugf _ _ => λ n, (tt, n)
  end.

Definition lateRiser (late : nat) : Port Effect :=
  {| State := nat; answer := lateAnswer late |}.

Definition web1 : Kcontainer := {| ID := "web-1" |}.

Definition webArgs : gmap string Value :=
  {[ "newContainers" := VKcontainers [web1] ]}.

Definition fresh_world (late : nat) : World (lateRiser late) :=
  {| outside := (0%nat : State (lateRiser late)); trace := [] |}.

(** The time a run spent asleep, in nanoseconds. *)
Definition slept (ev : Event Effect) : Z :=
  match ev with
  | Did call _ =>
      match call with
      | Sleep d => d
      | _ => 0%Z
      end
  end.

Definition sleepTotal (t : list (Event Effect)) : Z :=
  foldr (λ ev total, (slept ev + total)%Z) 0%Z t.

(** Successful starts of the containers [cs], in order. *)
Definition started (cs : list Kcontainer) : list (Event Effect) :=
  (λ c, Did (ContainerStart c) nil) <$> cs.

Definition webConfig : Kconfig :=
  {| Name := "web"; Registry := "docker.io"; Image := "nginx"; Tag := "1.25" |}.

(** The arguments of a job before its first step. *)
Definition configArgs : gmap string Value := {[ "config" := VKconfig webConfig ]}.

End ServiceRuns.

(* ===================================================================== *)
(** * The runtime, store and queue behind deployment.go                   *)
(* ===================================================================== *)

Module DeploymentRuns.

Import Effects Deployment Names.

(** ** The containers of the runtime *)

Inductive ContainerState :=
| created | running | restarting | exited | paused | dead.

#[global] Instance ContainerState_eq_dec : EqDecision ContainerState.
Proof. solve_decision. Defined.

(** A container as the runtime holds it. *)
Record Live := { container : KraneContainer.t; state : ContainerState }.

Definition idOf (l : Live) : string := KraneContainer.ID (container l).

Definition ids (v : list Live) : list string := idOf <$> v.

(** The containers whose label names deployment [d]. *)
Definition labelled (d : string) (v : list Live) : list Live :=
  filter (λ l, KraneContainer.Deployment (container l) = d) v.

Definition setState (id : string) (st : ContainerState) (v : list Live) : list Live :=
  (λ l, if decide (idOf l = id) then {| container := container l; state := st |}
        else l) <$> v.

Definition without (id : string) (v : list Live) : list Live :=
  filter (λ l, idOf l ≠ id) v.

Definition inState (st : ContainerState) (c : KraneContainer.t) : Live :=
  {| container := c; state := st |}.

(** The calls that change the set of containers or a container's state. *)
Definition touchesContainers {A} (e : Effect A) : bool :=
  match e with
  | ContainerCreate _ | ContainerStart _ | ContainerStop _ | ContainerRemove _ => true
  | _ => false
  end.

(** An event that leaves the containers alone. *)
Definition quiet (ev : Event Effect) : bool :=
  match ev with
  | Did call _ => negb (touchesContainers call)
  end.

(** Modelled from the spec: [ContainerCreate], [KraneContainer.Start],
    [KraneContainer.Remove] and [GetContainersByDeployment] live in other
    files of the package; this is what sections 4.2 and 4.4 of the spec say
    of them when they succeed, for a runtime whose containers are observed
    through [view].  Creation adds one container in state [created], under
    an ID no container has and with the label of the configuration's name;
    start puts the container of that ID in state [running]; remove takes the
    container of that ID away; listing reports the containers of the label;
    no other call changes the containers. *)
Record RuntimeContract (port : Port Effect) (view : State port → list Live)
  : Prop := {
  create_adds : ∀ config s c s',
    answer port _ (ContainerCreate config) s = ((c, None), s') →
    KraneContainer.Deployment c = Name config ∧
    (KraneContainer.ID c ∉ ids (view s)) ∧
    view s' = view s ++ [inState created c];
  start_runs : ∀ c s s',
    answer port _ (ContainerStart c) s = (None, s') →
    view s' = setState (KraneContainer.ID c) running (view s);
  remove_removes : ∀ c s s',
    answer port _ (ContainerRemove c) s = (None, s') →
    view s' = without (KraneContainer.ID c) (view s);
  list_reports : ∀ d s cs s',
    answer port _ (GetContainersByDeployment d) s = ((cs, None), s') →
    cs = container <$> labelled d (view s);
  others_keep : ∀ A (e : Effect A) s,
    touchesContainers e = false → view (answer port A e s).2 = view s
}.

(** ** The events of the successful paths *)

Definition creates (config : Config) (cs : list KraneContainer.t)
  : list (Event Effect) :=
  (λ c, Did (ContainerCreate config) (c, nil)) <$> cs.

Definition calls (method : KraneContainer.t → Effect error)
    (cs : list KraneContainer.t) : list (Event Effect) :=
  (λ c, Did (method c) nil) <$> cs.

(** What [createStartCheck] records when every step succeeds. *)
Definition createStartCheck_events (config : Config) (cs : list KraneContainer.t)
  : list (Event Effect) :=
  creates config cs ++
  [Did (LoggerDebugf "Created %d container(s) for deployment %s"
          [AInt (Z.of_nat (length cs)); AStr (Name config)]) tt] ++
  calls ContainerStart cs ++
  [Did (LoggerDebugf "Started %d container(s) for deployment %s"
          [AInt (Z.of_nat (length cs)); AStr (Name config)]) tt;
   Did (RetriableContainerHealthCheck cs 10) nil].

(** What the run phase of [Run] records when every step succeeds. *)
Definition Run_Run_events (config : Config) (cs : list KraneContainer.t)
  : list (Event Effect) :=
  [Did (LoggerDebugf "Pulling image for deployment %s" [AStr (Name config)]) tt;
   Did (DockerPullImage (Registry config) (Image config) (Tag config)) nil] ++
  createStartCheck_events config cs.

(** What the finalize phase of [Delete] records around each deletion: the
    log line before it, the call with its answer, and the complaint after a
    failure. *)
Definition secretsStep (d : string) (r : error) : list (Event Effect) :=
  [Did (LoggerDebugf "removing secrets collection for deployment %s" [AStr d]) tt;
   Did (DeleteSecretsCollection d) r].

Definition jobsStep (d : string) (r : error) : list (Event Effect) :=
  [Did (LoggerDebugf "removing jobs collection for deployment %s" [AStr d]) tt;
   Did (DeleteJobsCollection d) r].

Definition configStep (d : string) (r : error) : list (Event Effect) :=
  [Did (LoggerDebugf "removing config for deployment %s" [AStr d]) tt;
   Did (DeleteDeploymentConfig d) r].

Definition complaint (format e : string) : list (Event Effect) :=
  [Did (LoggerErrorf format [AErr e]) tt].

(** The error of the config lookup [Run] and [RestartContainers] start
    with, in world [w]. *)
Definition lookupError (port : Port Effect) (d : string) (w : World port) : error :=
  (answer port _ (GetDeploymentConfig d) (outside port w)).1.2.

(** ** Kinds of events *)


Definition isEnqueue (ev : Event Effect) : bool :=
  match ev with
  | Did call _ => match call with EnqueuerEnqueue _ => true | _ => false end
  end.

Definition isGetConfig (ev : Event Effect) : bool :=
  match ev with
  | Did call _ => match call with GetDeploymentConfig _ => true | _ => false end
  end.

Definition isDeleteJobs (ev : Event Effect) : bool :=
  match ev with
  | Did call _ => match call with DeleteJobsCollection _ => true | _ => false end
  end.

Definition isDeleteConfig (ev : Event Effect) : bool :=
  match ev with
  | Did call _ => match call with DeleteDeploymentConfig _ => true | _ => false end
  end.

Definition isCreate (ev : Event Effect) : bool :=
  match ev with
  | Did call _ => match call with ContainerCreate _ => true | _ => false end
  end.

Definition isStart (ev : Event Effect) : bool :=
  match ev with
  | Did call _ => match call with ContainerStart _ => true | _ => false end
  end.

(** A call that removes or stops a container. *)
Definition isRemoveOrStop (ev : Event Effect) : bool :=
  match ev with
  | Did call _ =>
      match call with
      | ContainerRemove _ | ContainerStop _ => true
      | _ => false
      end
  end.

(** A [PullImage] call that came back with an error. *)
Definition isFailedPull (ev : Event Effect) : bool :=
  match ev with
  | Did call a =>
      match call in Effect A return A → bool with
      | DockerPullImage _ _ _ => λ err, bool_decide (is_Some err)
      | _ => λ _, false
      end a
  end.

(** ** The collaborators a phase may call *)

Definition isLog {A} (e : Effect A) : bool :=
  match e with
  | LoggerErrorf _ _ | LoggerDebugf _ _ => true
  | _ => false
  end.

(** Setup of [Run]: ensure the two collections, list the containers. *)
Definition setupCall {A} (e : Effect A) : bool :=
  match e with
  | CreateSecretsCollection _ | CreateJobsCollection _
  | GetContainersByDeployment _ => true
  | _ => isLog e
  end.

(** Run phase of [Run]: pull, create, start, health check. *)
Definition runCall {A} (e : Effect A) : bool :=
  match e with
  | DockerPullImage _ _ _ | ContainerCreate _ | ContainerStart _
  | RetriableContainerHealthCheck _ _ => true
  | _ => isLog e
  end.

(** Finalize phase of [Run]: remove. *)
Definition finallyCall {A} (e : Effect A) : bool :=
  match e with
  | ContainerRemove _ => true
  | _ => isLog e
  end.

(** An event whose call is of the given kind. *)
Definition only (kind : ∀ A, Effect A → bool) (ev : Event Effect) : Prop :=
  match ev with
  | Did call _ => kind _ call = true
  end.

(** ** A store, runtime and queue to run the package against

    Modelled from the spec: a store with the [deployments] collection and
    the per-deployment collections (section 4.1), a runtime that creates,
    starts, stops, removes and lists containers (section 4.2), a health
    check that passes when every container it is given is running, and a
    bounded queue whose overflow fails with [QueueFull] (section 4.6).
    [failing] lists collaborators that are out of order, by name. *)
Record Sim := {
  configs : list (string * Config);
  collections : list string;
  live : list Live;
  queue : list Job.t;
  capacity : nat;
  failing : list string;
  issued : nat
}.

Definition broken (name : string) (s : Sim) : bool :=
  existsb (String.eqb name) (failing s).

Definition withConfigs (s : Sim) (c : list (string * Config)) : Sim :=
  {| configs := c; collections := collections s; live := live s; queue := queue s;
     capacity := capacity s; failing := failing s; issued := issued s |}.

Definition withCollections (s : Sim) (c : list string) : Sim :=
  {| configs := configs s; collections := c; live := live s; queue := queue s;
     capacity := capacity s; failing := failing s; issued := issued s |}.

Definition withLive (s : Sim) (v : list Live) : Sim :=
  {| configs := configs s; collections := collections s; live := v; queue := queue s;
     capacity := capacity s; failing := failing s; issued := issued s |}.

Definition withQueue (s : Sim) (q : list Job.t) : Sim :=
  {| configs := configs s; collections := collections s; live := live s; queue := q;
     capacity := capacity s; failing := failing s; issued := issued s |}.

Definition withIssued (s : Sim) (n : nat) : Sim :=
  {| configs := configs s; collections := collections s; live := live s; queue := queue s;
     capacity := capacity s; failing := failing s; issued := n |}.

Definition lookupConfig (d : string) (s : Sim) : option Config :=
  snd <$> find (λ p, String.eqb p.1 d) (configs s).

Definition isRunning (v : list Live) (c : KraneContainer.t) : bool :=
  existsb (λ l, bool_decide (idOf l = KraneContainer.ID c ∧ state l = running)) v.

(** A store call on collection [key]: fails when out of order, else
    updates the collections. *)
Definition storeCall (name : string) (update : list string → list string) (s : Sim)
  : error * Sim :=
  if broken name s then (Some "StoreIO", s)
  else (nil, withCollections s (update (collections s))).

Definition addKey (key : string) (keys : list string) : list string :=
  if existsb (String.eqb key) keys then keys else keys ++ [key].

Definition dropKey (key : string) (keys : list string) : list string :=
  filter (λ k, k ≠ key) keys.

Definition simAnswer (A : Type) (e : Effect A) : Sim → A * Sim :=
  match e in Effect A return Sim → A * Sim with
  | GetDeploymentConfig d => λ s,
      match lookupConfig d s with
      | Some config => ((config, nil), s)
      | None => ((Config_zero, Some "StoreMissing"), s)
      end
  | DeleteDeploymentConfig d => λ s,
      if broken "DeleteDeploymentConfig" s then (Some "StoreIO", s)
      else (nil, withConfigs s (filter (λ p, p.1 ≠ d) (configs s)))
  | CreateSecretsCollection d =>
      storeCall "CreateSecretsCollection" (addKey ("secrets:" +:+ d))
  | DeleteSecretsCollection d =>
      storeCall "DeleteSecretsCollection" (dropKey ("secrets:" +:+ d))
  | CreateJobsCollection d =>
      storeCall "CreateJobsCollection" (addKey ("jobs:" +:+ d))
  | DeleteJobsCollection d =>
      storeCall "DeleteJobsCollection" (dropKey ("jobs:" +:+ d))
  | GetContainersByDeployment d => λ s,
      if broken "GetContainersByDeployment" s then (([], Some "RuntimeUnavailable"), s)
      else ((container <$> labelled d (live s), nil), s)
  | DockerPullImage _ _ _ => λ s,
      if broken "PullImage" s then (Some "RuntimeImage", s) else (nil, s)
  | ContainerCreate config => λ s,
      let c := {| KraneContainer.ID := freshID (ids (live s));
                  KraneContainer.Deployment := Name config |} in
      if broken "ContainerCreate" s then ((c, Some "RuntimeInternal"), s)
      else ((c, nil), withLive s (live s ++ [inState created c]))
  | ContainerStart c => λ s,
      if broken "ContainerStart" s then (Some "RuntimeInternal", s)
      else (nil, withLive s (setState (KraneContainer.ID c) running (live s)))
  | ContainerStop c => λ s,
      if broken "ContainerStop" s then (Some "RuntimeInternal", s)
      else (nil, withLive s (setState (KraneContainer.ID c) exited (live s)))
  | ContainerRemove c => λ s,
      if broken "ContainerRemove" s then (Some "RuntimeInternal", s)
      else (nil, withLive s (without (KraneContainer.ID c) (live s)))
  | RetriableContainerHealthCheck cs _ => λ s,
      if forallb (isRunning (live s)) cs then (nil, s)
      else (Some "HealthUnstable", s)
  | UuidGenerate => λ s, ("job-" +:+ letters (issued s), withIssued s (S (issued s)))
  | UIntEnv _ => λ s, (1%N, s)
  | EnqueuerEnqueue j => λ s,
      if (length (queue s) <? capacity s)%nat
      then ((j, nil), withQueue s (queue s ++ [j]))
      else ((j, Some "QueueFull"), s)
  | Go_enqueue _ => λ s, (tt, s)
  | LoggerErrorf _ _ => λ s, (tt, s)
  | LoggerDebugf _ _ => λ s, (tt, s)
  end.

Definition sim : Port Effect := {| State := Sim; answer := simAnswer |}.

(** The deployment of the spec's first scenario, stored and not yet run. *)
Definition web : Config :=
  {| Name := "web"; Registry := ""; Image := "nginx"; Tag := "1.25"; Scale := 2 |}.

Definition stored : Sim := {|
  configs := [("web", web)];
  collections := [];
  live := [];
  queue := [];
  capacity := 1024;
  failing := [];
  issued := 0
|}.

Definition start_of (s : Sim) : World sim :=
  {| outside := (s : State sim); trace := [] |}.

(** The same deployment after a first run: both collections exist. *)
Definition deployed : Sim := withCollections stored ["secrets:web"; "jobs:web"].

(** A store whose secret collections cannot be deleted. *)
Definition secretsStuck : Sim := {|
  configs := configs deployed; collections := collections deployed;
  live := []; queue := []; capacity := 1024;
  failing := ["DeleteSecretsCollection"]; issued := 0
|}.

(** The deployment with two running containers, next to a container of
    another deployment. *)
Definition twoRunning : Sim := withLive deployed
  [inState running {| KraneContainer.ID := "n"; KraneContainer.Deployment := "web" |};
   inState running {| KraneContainer.ID := "nn"; KraneContainer.Deployment := "api" |};
   inState running {| KraneContainer.ID := "nnn"; KraneContainer.Deployment := "web" |}].

(** A queue that is full. *)
Definition queueFull : Sim := {|
  configs := configs stored; collections := []; live := []; queue := [];
  capacity := 0; failing := []; issued := 0
|}.

End DeploymentRuns.

(* ===================================================================== *)
(** * src/internal/deployment/deployment.go: Exist                        *)
(* ===================================================================== *)

Module DeploymentExist.

Import Effects Deployment.

Section Exist.

Context (port : Port Effect).

(** [Config.Empty] is declared in another file of the package; [Exist]
    only needs its verdict. *)
Context (Empty : Config → bool).

(** [Exist] returns true if a deployment exists, false otherwise. *)
Definition Exist (deployment : string) : M port bool :=
  '(config, err) ← perform (GetDeploymentConfig deployment);
  match err with
  | Some _ => mret false
  | None => if Empty config then mret false else mret true
  end.

End Exist.

End DeploymentExist.

(* ===================================================================== *)
(** * src/internal/proxy/middlewares/middlewares.go                       *)
(* ===================================================================== *)

Module Middlewares.

(** [fmt.Sprintf("traefik.http.routers.%s-insecure.middlewares", deployment)] *)
Definition routerKey (deployment : string) : string :=
  "traefik.http.routers." +:+ deployment +:+ "-insecure.middlewares".

Definition RedirectToHTTPSLabels (deployment : string) : gmap string string :=
  let labels : gmap string string := ∅ in
  let labels := <[routerKey deployment := "redirect-to-https@docker"]> labels in
  let labels :=
    <["traefik.http.middlewares.redirect-to-https.redirectscheme.scheme" := "https"]>
      labels in
  let labels :=
    <["traefik.http.middlewares.redirect-to-https.redirectscheme.port" := "443"]>
      labels in
  let labels :=
    <["traefik.http.middlewares.redirect-to-https.redirectscheme.permanent" := "true"]>
      labels in
  labels.

End Middlewares.

(* ===================================================================== *)
(** * src/internal/api/api.go: the route table                            *)
(* ===================================================================== *)

Module Api.

(** The middlewares api.go registers. *)
Inductive Middleware :=
| Logging
| RecoveryHandler
| CORS (allowedMethods allowedOrigins : list string)
| AuthSessionMiddleware.

(** The handlers of package controllers that api.go routes to. *)
Inductive Controller :=
| GetServerStatus | RequestLoginPhrase | AuthenticateClientJWT | PingController
| GetAllDeployments | SaveDeployment | GetDeployment | DeleteDeployment
| GetSecrets | CreateSecret
| GetRecentJobs | GetJobsByNamespace | GetJobByID
| GetSessions.

Definition MethodGet : string := "GET".
Definition MethodPost : string := "POST".
Definition MethodDelete : string := "DELETE".

Record Route := {
  path : string;
  handler : Controller;
  methods : list string
}.

(** [mux.Router] as far as api.go uses it: [Use] appends a middleware to
    the router's list, [HandleFunc] appends a route. *)
Record Router := {
  middlewares : list Middleware;
  routes : list Route
}.

Definition newRouter : Router := {| middlewares := []; routes := [] |}.

Definition Use (r : Router) (mw : Middleware) : Router :=
  {| middlewares := middlewares r ++ [mw]; routes := routes r |}.

(** [HandleFunc] returns the new route; here, its position in the router. *)
Definition HandleFunc (r : Router) (p : string) (h : Controller) : Router * nat :=
  ({| middlewares := middlewares r;
      routes := routes r ++ [{| path := p; handler := h; methods := [] |}] |},
   length (routes r)).

(** [route.Methods(...)] on the route at position [i]. *)
Definition Methods (ri : Router * nat) (ms : list string) : Router :=
  let '(r, i) := ri in
  {| middlewares := middlewares r;
     routes := alter (λ rt, {| path := path rt; handler := handler rt;
                               methods := ms |}) i (routes r) |}.

(** [withRoute]: every middleware goes to the router with [Use], then the
    route is registered. *)
Definition withRoute (r : Router) (p : string) (h : Controller)
    (mws : list Middleware) : Router * nat :=
  let r := foldl Use r mws in
  HandleFunc r p h.

(** [withBaseMiddlewares] *)
Definition withBaseMiddlewares (router : Router) : Router :=
  let router := Use router Logging in
  let router := Use router RecoveryHandler in
  Use router (CORS [MethodGet; MethodPost] ["*"]).

(** [withRoutes]: the two subrouters of prefix "/", in the order they are
    created. *)
Definition withRoutes : Router * Router :=
  let noAuthRouter := newRouter in
  let noAuthRouter := Methods (withRoute noAuthRouter "/" GetServerStatus []) [MethodGet] in
  let noAuthRouter :=
    Methods (withRoute noAuthRouter "/login" RequestLoginPhrase []) [MethodGet] in
  let noAuthRouter :=
    Methods (withRoute noAuthRouter "/auth" AuthenticateClientJWT []) [MethodPost] in
  let noAuthRouter :=
    Methods (withRoute noAuthRouter "/ping/{namespace}/{message}" PingController [])
      [MethodGet] in
  let authRouter := newRouter in
  (* deployments *)
  let authRouter :=
    Methods (withRoute authRouter "/deployments" GetAllDeployments [AuthSessionMiddleware])
      [MethodGet] in
  let authRouter :=
    Methods (withRoute authRouter "/deployments" SaveDeployment [AuthSessionMiddleware])
      [MethodPost] in
  let authRouter :=
    Methods (withRoute authRouter "/deployments/{name}" GetDeployment [AuthSessionMiddleware])
      [MethodGet] in
  let authRouter :=
    Methods (withRoute authRouter "/deployments/{name}" DeleteDeployment
               [AuthSessionMiddleware])
      [MethodDelete] in
  (* secrets *)
  let authRouter :=
    Methods (withRoute authRouter "/secrets/{name}" GetSecrets [AuthSessionMiddleware])
      [MethodGet] in
  let authRouter :=
    Methods (withRoute authRouter "/secrets/{name}" CreateSecret [AuthSessionMiddleware])
      [MethodPost] in
  (* jobs *)
  let authRouter :=
    Methods (withRoute authRouter "/jobs" GetRecentJobs [AuthSessionMiddleware])
      [MethodGet] in
  let authRouter :=
    Methods (withRoute authRouter "/jobs/{namespace}" GetJobsByNamespace
               [AuthSessionMiddleware])
      [MethodGet] in
  let authRouter :=
    Methods (withRoute authRouter "/jobs/{namespace}/{id}" GetJobByID
               [AuthSessionMiddleware])
      [MethodGet] in
  (* session *)
  let authRouter :=
    Methods (withRoute authRouter "/sessions" GetSessions [AuthSessionMiddleware])
      [MethodGet] in
  (noAuthRouter, authRouter).

End Api.

(* ===================================================================== *)
(** * Running calls                                                       *)
(* ===================================================================== *)

Module EffectsFacts.

Import Effects.

Section WithPort.

Context {Eff : Type → Type} (port : Port Eff).

(** A call followed by the rest of the function. *)
Lemma bind_perform {A B} (e : Eff A) (k : A → M port B) (w : World port) :
  (perform e ≫= k) w =
    k (answer port A e (outside port w)).1
      {| outside := (answer port A e (outside port w)).2;
         trace := trace port w ++ [Did e (answer port A e (outside port w)).1] |}.
Proof.
  unfold mbind, M_bind, perform.
  by destruct (answer port A e (outside port w)).
Qed.

Lemma perform_run {A} (e : Eff A) (w : World port) :
  perform e w =
    Returns (answer port A e (outside port w)).1
      {| outside := (answer port A e (outside port w)).2;
         trace := trace port w ++ [Did e (answer port A e (outside port w)).1] |}.
Proof. unfold perform. by destruct (answer port A e (outside port w)). Qed.

Lemma replay_app evs : ∀ s s' evs' s'',
  replay port s evs s' → replay port s' evs' s'' → replay port s (evs ++ evs') s''.
Proof.
  induction evs as [|[A e a] evs IH]; intros s s' evs' s''; simpl.
  - by intros ->.
  - intros (s1 & Hans & Hrest) H2. exists s1. split; [done|]. by eapply IH.
Qed.

Lemma replay_one {A} (e : Eff A) s :
  replay port s [Did e (answer port A e s).1] (answer port A e s).2.
Proof. simpl. exists (answer port A e s).2. by destruct (answer port A e s). Qed.

Lemma replay_app_inv evs : ∀ s evs' s'',
  replay port s (evs ++ evs') s'' →
  ∃ s', replay port s evs s' ∧ replay port s' evs' s''.
Proof.
  induction evs as [|[A e a] evs IH]; intros s evs' s''; simpl.
  - intros H. by exists s.
  - intros (s1 & Hans & Hrest). destruct (IH _ _ _ Hrest) as (s' & H1 & H2).
    exists s'. split; [|done]. by exists s1.
Qed.

Lemma extends_refl (w : World port) : extends port w [] w.
Proof. split; [by rewrite app_nil_r | done]. Qed.

Lemma extends_trans (w w' w'' : World port) evs evs' :
  extends port w evs w' → extends port w' evs' w'' →
  extends port w (evs ++ evs') w''.
Proof.
  intros [Ht Hr] [Ht' Hr']. split.
  - by rewrite Ht', Ht, app_assoc.
  - by eapply replay_app.
Qed.

(** What one call does to the world. *)
Lemma perform_extends {A} (e : Eff A) (w : World port) :
  ∃ a w', perform e w = Returns a w' ∧ extends port w [Did e a] w' ∧
          (a, outside port w') = answer port A e (outside port w).
Proof.
  rewrite perform_run. eexists _, _. split; [done|]. split.
  - split; [done|]. apply replay_one.
  - simpl. by destruct (answer port A e (outside port w)).
Qed.

Lemma always_ret (P : Event Eff → Prop) {A} (a : A) : always port P (mret a).
Proof.
  intros w. exists a, w, []. split_and!; [done | apply extends_refl | constructor].
Qed.

Lemma always_perform (P : Event Eff → Prop) {A} (e : Eff A) :
  (∀ a, P (Did e a)) → always port P (perform e).
Proof.
  intros HP w. destruct (perform_extends e w) as (a & w' & Hrun & Hext & _).
  exists a, w', [Did e a]. split_and!; [done..|]. by repeat constructor.
Qed.

Lemma always_bind (P : Event Eff → Prop) {A B} (m : M port A) (k : A → M port B) :
  always port P m → (∀ a, always port P (k a)) → always port P (m ≫= k).
Proof.
  intros Hm Hk w. destruct (Hm w) as (a & w1 & evs1 & Hrun1 & Hext1 & HP1).
  destruct (Hk a w1) as (b & w2 & evs2 & Hrun2 & Hext2 & HP2).
  exists b, w2, (evs1 ++ evs2). split_and!.
  - unfold mbind, M_bind. by rewrite Hrun1.
  - by eapply extends_trans.
  - by apply Forall_app.
Qed.

End WithPort.

End EffectsFacts.

(* ===================================================================== *)
(** * Properties of src/docker/docker.go                                  *)
(* ===================================================================== *)

Module DockerFacts.

Import Docker DockerContract Names.

Lemma eqb_empty_false (s : string) : s ≠ "" → String.eqb s "" = false.
Proof. intros H. by apply String.eqb_neq. Qed.

(** The loop of [GetNetworkByName] finds the first network of the name. *)
Lemma firstNamed_found name nets kNet net :
  net ∈ nets → NetworkResource.Name net = name →
  ∃ net', net' ∈ nets ∧ NetworkResource.Name net' = name ∧
          firstNamed name nets kNet = net'.
Proof.
  induction nets as [|n rest IH]; intros Hin Hname.
  - by apply elem_of_nil in Hin.
  - simpl. destruct (String.eqb (NetworkResource.Name n) name) eqn:E.
    + apply String.eqb_eq in E. exists n. split; [left | done].
    + apply elem_of_cons in Hin as [-> | Hin].
      * apply String.eqb_neq in E. done.
      * destruct (IH Hin Hname) as (net' & ? & ? & ?).
        exists net'. split; [by right | done].
Qed.

Lemma firstNamed_absent name nets kNet :
  named name nets = [] → firstNamed name nets kNet = kNet.
Proof.
  induction nets as [|n rest IH]; [done|].
  unfold named. rewrite filter_cons. simpl.
  destruct (String.eqb (NetworkResource.Name n) name) eqn:E.
  - apply String.eqb_eq in E. rewrite decide_True; done.
  - apply String.eqb_neq in E. rewrite decide_False; [|done]. apply IH.
Qed.

Lemma named_app name l1 l2 : named name (l1 ++ l2) = named name l1 ++ named name l2.
Proof. apply filter_app. Qed.

Section Networks.

Context (sdk : Sdk) (networks : Engine sdk → list NetworkResource.t).
Context (contract : NetworkContract sdk networks).

(** What [GetNetworkByName] does on an initialised client. *)
Lemma GetNetworkByName_initialised ctx name (w : World sdk) :
  is_Some (dkrClient sdk w) →
  ∃ l e s',
    serve sdk _ (NetworkList ctx NetworkListOptions_zero) (engine sdk w) = ((l, e), s') ∧
    GetNetworkByName sdk ctx name w =
      Returns
        (match e with
         | Some msg => (NetworkResource.zero, Some msg)
         | None => (firstNamed name l NetworkResource.zero, nil)
         end)
        {| dkrClient := dkrClient sdk w; engine := s';
           wire := wire sdk w ++ [Call (NetworkList ctx NetworkListOptions_zero)] |}.
Proof.
  intros [c Hc]. unfold GetNetworkByName. rewrite Hc.
  unfold mbind, M_bind, invoke.
  destruct (serve sdk _ (NetworkList ctx NetworkListOptions_zero) (engine sdk w))
    as [[l e] s'] eqn:E.
  exists l, e, s'. split; [done|]. destruct e; simpl; by rewrite ?Hc.
Qed.

(** What a successful [CreateBridgeNetwork] did: either it found the first
    network of the name and returned its ID after one [NetworkList], or no
    network had the name and it created one. *)
Lemma CreateBridgeNetwork_cases ctx name (w w1 : World sdk) r :
  is_Some (dkrClient sdk w) →
  Forall (λ net, NetworkResource.ID net ≠ "") (networks (engine sdk w)) →
  CreateBridgeNetwork sdk ctx name w = Returns (r, nil) w1 →
  dkrClient sdk w1 = dkrClient sdk w ∧
  ((∃ net, net ∈ networks (engine sdk w) ∧ NetworkResource.Name net = name ∧
           firstNamed name (networks (engine sdk w)) NetworkResource.zero = net ∧
           NetworkCreateResponse.ID r = NetworkResource.ID net ∧
           networks (engine sdk w1) = networks (engine sdk w) ∧
           wire sdk w1 =
             wire sdk w ++ [Call (NetworkList ctx NetworkListOptions_zero)])
   ∨ (named name (networks (engine sdk w)) = [] ∧
      NetworkCreateResponse.ID r ≠ "" ∧
      networks (engine sdk w1) =
        networks (engine sdk w) ++
          [{| NetworkResource.Name := name;
              NetworkResource.ID := NetworkCreateResponse.ID r |}])).
Proof.
  intros Hc Hids. pose proof Hc as [c Hc'].
  destruct (GetNetworkByName_initialised ctx name w Hc) as (l & e & s' & Hserve & Hget).
  unfold CreateBridgeNetwork. rewrite Hc'.
  unfold mbind, M_bind. rewrite Hget.
  destruct (list_reports _ _ contract _ _ _ _ _ _ Hserve) as [Hsame Hl].
  destruct e as [msg|]; [discriminate|].
  specialize (Hl eq_refl). subst l.
  destruct (decide (named name (networks (engine sdk w)) = [])) as [Hnone|Hsome].
  - (* no network of the name: the zero value comes back, so create *)
    rewrite (firstNamed_absent _ _ _ Hnone). simpl.
    unfold invoke. simpl. rewrite Hc'.
    destruct (serve sdk _ (NetworkCreateReq ctx name _) s') as [[r' e'] s''] eqn:Hcreate.
    intros [= -> -> <-]. simpl.
    destruct (create_adds _ _ contract _ _ _ _ _ _ Hcreate) as [Hid Hadd].
    split; [done|]. right. rewrite Hadd, Hsame. done.
  - (* some network has the name *)
    assert (∃ net, net ∈ networks (engine sdk w) ∧ NetworkResource.Name net = name)
      as (net0 & Hin0 & Hname0).
    { destruct (named name (networks (engine sdk w))) as [|n ?] eqn:E; [done|].
      assert (n ∈ named name (networks (engine sdk w))) as Hn by (rewrite E; left).
      unfold named in Hn. apply list_elem_of_filter in Hn as [? ?]. eauto. }
    destruct (firstNamed_found name _ NetworkResource.zero net0 Hin0 Hname0)
      as (net & Hin & Hname & Hfirst).
    rewrite Hfirst.
    assert (NetworkResource.ID net ≠ "") as Hne
      by (rewrite Forall_forall in Hids; by apply Hids).
    rewrite (eqb_empty_false _ Hne). simpl.
    intros [= <- <-]. simpl.
    split; [done|]. left. exists net. by rewrite Hsame.
Qed.

Lemma firstNamed_app name l1 l2 kNet :
  named name l1 = [] →
  firstNamed name (l1 ++ l2) kNet = firstNamed name l2 kNet.
Proof.
  induction l1 as [|n rest IH]; [done|].
  unfold named. rewrite filter_cons. simpl.
  destruct (String.eqb (NetworkResource.Name n) name) eqn:E.
  - apply String.eqb_eq in E. rewrite decide_True; done.
  - apply String.eqb_neq in E. rewrite decide_False; [|done]. apply IH.
Qed.

(** C9. Ensuring the bridge network is idempotent: when a network of the
    name exists, a successful [CreateBridgeNetwork] returns the ID of an
    existing network of that name (the first listed) after a single
    [NetworkList] and leaves the networks as they were; and a second
    successful call returns the ID the first one returned, creates nothing,
    and, when no network had the name at the start, leaves exactly one. *)
Theorem CreateBridgeNetwork_idempotent ctx name (w w1 : World sdk) r1 :
  is_Some (dkrClient sdk w) →
  Forall (λ net, NetworkResource.ID net ≠ "") (networks (engine sdk w)) →
  CreateBridgeNetwork sdk ctx name w = Returns (r1, nil) w1 →
  (∀ net, net ∈ networks (engine sdk w) → NetworkResource.Name net = name →
     (∃ net', net' ∈ networks (engine sdk w) ∧ NetworkResource.Name net' = name ∧
              NetworkCreateResponse.ID r1 = NetworkResource.ID net') ∧
     networks (engine sdk w1) = networks (engine sdk w) ∧
     wire sdk w1 = wire sdk w ++ [Call (NetworkList ctx NetworkListOptions_zero)]) ∧
  (∀ r2 w2,
     CreateBridgeNetwork sdk ctx name w1 = Returns (r2, nil) w2 →
     NetworkCreateResponse.ID r2 = NetworkCreateResponse.ID r1 ∧
     networks (engine sdk w2) = networks (engine sdk w1) ∧
     wire sdk w2 = wire sdk w1 ++ [Call (NetworkList ctx NetworkListOptions_zero)] ∧
     (named name (networks (engine sdk w)) = [] →
      length (named name (networks (engine sdk w2))) = 1%nat)).
Proof.
  intros Hc Hids H1.
  destruct (CreateBridgeNetwork_cases ctx name w w1 r1 Hc Hids H1)
    as [Hclient [(net & Hin & Hname & Hfirst & Hid & Hnets & Hwire) | (Hnone & Hid & Hnets)]].
  - split.
    + intros _ _ _. split_and!; eauto.
    + intros r2 w2 H2.
      assert (is_Some (dkrClient sdk w1)) as Hc1 by (by rewrite Hclient).
      assert (Forall (λ net, NetworkResource.ID net ≠ "") (networks (engine sdk w1)))
        as Hids1 by (by rewrite Hnets).
      destruct (CreateBridgeNetwork_cases ctx name w1 w2 r2 Hc1 Hids1 H2)
        as [_ [(net2 & _ & _ & Hfirst2 & Hid2 & Hnets2 & Hwire2) | (Hnone2 & _)]].
      * rewrite Hnets in Hfirst2. rewrite Hfirst in Hfirst2. subst net2.
        split_and!; [congruence | done | done |].
        intros Hnone. exfalso.
        assert (net ∈ named name (networks (engine sdk w))) as Hn
          by (unfold named; apply list_elem_of_filter; done).
        rewrite Hnone in Hn. by apply elem_of_nil in Hn.
      * exfalso. rewrite Hnets in Hnone2.
        assert (net ∈ named name (networks (engine sdk w))) as Hn
          by (unfold named; apply list_elem_of_filter; done).
        rewrite Hnone2 in Hn. by apply elem_of_nil in Hn.
  - split.
    + intros net Hin Hname. exfalso.
      assert (net ∈ named name (networks (engine sdk w))) as Hn
        by (unfold named; apply list_elem_of_filter; done).
      rewrite Hnone in Hn. by apply elem_of_nil in Hn.
    + intros r2 w2 H2.
      assert (is_Some (dkrClient sdk w1)) as Hc1 by (by rewrite Hclient).
      assert (Forall (λ net, NetworkResource.ID net ≠ "") (networks (engine sdk w1)))
        as Hids1.
      { rewrite Hnets. apply Forall_app. split; [done|]. by apply Forall_singleton. }
      assert (named name (networks (engine sdk w1)) =
              [{| NetworkResource.Name := name;
                  NetworkResource.ID := NetworkCreateResponse.ID r1 |}]) as Hnamed1.
      { rewrite Hnets, named_app, Hnone. unfold named.
        rewrite filter_cons, decide_True; done. }
      destruct (CreateBridgeNetwork_cases ctx name w1 w2 r2 Hc1 Hids1 H2)
        as [_ [(net2 & _ & _ & Hfirst2 & Hid2 & Hnets2 & Hwire2) | (Hnone2 & _)]].
      * rewrite Hnets, (firstNamed_app _ _ _ _ Hnone) in Hfirst2.
        simpl in Hfirst2. rewrite String.eqb_refl in Hfirst2. subst net2.
        split_and!; [done | done | done |].
        intros _. by rewrite Hnets2, Hnamed1.
      * by rewrite Hnamed1 in Hnone2.
Qed.

End Networks.

(** The engine of [simSdk] keeps the network contract. *)
Lemma simSdk_contract : NetworkContract simSdk (λ s, s).
Proof.
  split.
  - intros ctx options s l e s' [= <- <- <-]. done.
  - intros ctx name options s r s' [= <- <-]. simpl. split; [|done].
    unfold freshID. simpl. discriminate.
Qed.

Lemma CreateBridgeNetwork_idempotent_witness :
  ∃ r1 w1,
    CreateBridgeNetwork simSdk Background "krane" ready = Returns (r1, nil) w1 ∧
    ∀ r2 w2,
      CreateBridgeNetwork simSdk Background "krane" w1 = Returns (r2, nil) w2 →
      NetworkCreateResponse.ID r2 = NetworkCreateResponse.ID r1 ∧
      engine simSdk w2 = engine simSdk w1 ∧
      wire simSdk w2 =
        wire simSdk w1 ++ [Call (NetworkList Background NetworkListOptions_zero)] ∧
      (named "krane" (engine simSdk ready) = [] →
       length (named "krane" (engine simSdk w2)) = 1%nat).
Proof.
  eexists _, _. split; [lazy; reflexivity|].
  refine (proj2 (CreateBridgeNetwork_idempotent simSdk (λ s, s) simSdk_contract
                   Background "krane" ready _ _ _ _ _)).
  - by eexists.
  - apply Forall_nil_2.
  - lazy; reflexivity.
Defined.

(** C10. Before [New] has stored a client, every operation of the package
    that goes through the client returns the zero value of its result with
    the error "docker client not initialized"; it returns (no nil
    dereference) and leaves the package state, the engine and the record of
    requests untouched. *)
Theorem uninitialised_client_guards (sdk : Sdk) (eng : Engine sdk) (sent : list Sent)
    (ctx : Context) (image deploymentName containerName networkID hPort cPort
     containerID imageID name : string) (stream : bool) :
  let w := {| dkrClient := None; engine := eng; wire := sent |} in
  let err := Errorf "docker client not initialized" in
  PullImage sdk ctx image w = Returns (None, err) w ∧
  CreateContainer sdk ctx image deploymentName containerName networkID hPort cPort w
    = Returns (ContainerCreateCreatedBody.zero, err) w ∧
  StartContainer sdk ctx containerID w = Returns err w ∧
  ConnectContainerToNetwork sdk ctx networkID containerID w = Returns err w ∧
  StopContainer sdk ctx containerID w = Returns err w ∧
  RemoveContainer sdk ctx containerID w = Returns err w ∧
  ListContainers sdk ctx w = Returns ([], err) w ∧
  GetContainerStatus sdk ctx containerID stream w
    = Returns (ContainerStats.zero, err) w ∧
  CreateBridgeNetwork sdk ctx name w = Returns (NetworkCreateResponse.zero, err) w ∧
  GetNetworkByName sdk ctx name w = Returns (NetworkResource.zero, err) w ∧
  RemoveImage sdk ctx imageID w = Returns ([], err) w ∧
  ReadContainerLogs sdk ctx containerID w = Returns (None, err) w.
Proof. intros w err. repeat split. Qed.

(** C6 (the code as it is). On an initialised client and a container port
    that parses, [CreateContainer] sends one create request whose
    specification takes the image and the [deployment.name] label from the
    arguments, but whose hostname is the constant "bsn" and whose
    environment is the constant list with the single entry
    "TEST_ENV=pipi", whatever the deployment is. *)
Theorem CreateContainer_fixed_hostname_env (sdk : Sdk) (w : World sdk) (ctx : Context)
    (image deploymentName containerName networkID hPort cPort : string)
    (containerPort : Port) :
  is_Some (dkrClient sdk w) →
  NewPort sdk "tcp" cPort = (containerPort, nil) →
  ∃ conf hostConf netConf result w',
    CreateContainer sdk ctx image deploymentName containerName networkID hPort cPort w
      = Returns result w' ∧
    wire sdk w' =
      wire sdk w ++ [Call (ContainerCreate ctx conf hostConf netConf containerName)] ∧
    Hostname conf = "bsn" ∧
    Env conf = ["TEST_ENV=pipi"] ∧
    Image conf = image ∧
    Labels conf = {[ "deployment.name" := deploymentName ]}.
Proof.
  intros [c Hc] Hport. unfold CreateContainer. rewrite Hc, Hport. unfold invoke.
  match goal with
  | |- context [serve sdk _ ?r ?e] => destruct (serve sdk _ r e) as [res e'] eqn:E
  end.
  eexists _, _, _, _, _. split; [reflexivity|]. simpl. done.
Qed.

(** The failing input of C6: deployment "web" gets hostname "bsn". *)
Lemma CreateContainer_fixed_hostname_env_witness :
  ∃ conf hostConf netConf result w',
    CreateContainer simSdk Background "nginx:1.25" "web" "web-01" "net1" "8080" "80" ready
      = Returns result w' ∧
    wire simSdk w' =
      wire simSdk ready ++ [Call (ContainerCreate Background conf hostConf netConf "web-01")] ∧
    Hostname conf = "bsn" ∧
    Env conf = ["TEST_ENV=pipi"] ∧
    Image conf = "nginx:1.25" ∧
    Labels conf = {[ "deployment.name" := "web" ]}.
Proof.
  apply (CreateContainer_fixed_hostname_env simSdk ready Background
           "nginx:1.25" "web" "web-01" "net1" "8080" "80" "80/tcp").
  - by eexists.
  - reflexivity.
Defined.

(** C7 (the code as it is). [FormatImageSourceURL] always writes
    [repo/image:tag], with "latest" for an empty tag; an empty registry is
    not left out, so the reference then starts with a slash. *)
Theorem FormatImageSourceURL_always_prefixes (repo imageName tag : string) :
  FormatImageSourceURL repo imageName tag =
    repo +:+ "/" +:+ imageName +:+ ":" +:+ (if decide (tag = "") then "latest" else tag)
  ∧ FormatImageSourceURL "" imageName tag =
    "/" +:+ imageName +:+ ":" +:+ (if decide (tag = "") then "latest" else tag).
Proof.
  unfold FormatImageSourceURL.
  destruct (String.eqb tag "") eqn:E.
  - apply String.eqb_eq in E. subst. done.
  - apply String.eqb_neq in E. rewrite decide_False; done.
Qed.

(** The failing input of C7: no registry, image "nginx", tag "1.25". *)
Example FormatImageSourceURL_no_registry :
  FormatImageSourceURL "" "nginx" "1.25" = "/nginx:1.25" ∧
  FormatImageSourceURL "" "nginx" "1.25" ≠ "nginx:1.25" ∧
  FormatImageSourceURL "docker.io" "nginx" "" = "docker.io/nginx:latest".
Proof. split_and!; [reflexivity | discriminate | reflexivity]. Qed.

End DockerFacts.

(* ===================================================================== *)
(** * Properties of src/unnamed/part_000                                  *)
(* ===================================================================== *)

Module ServiceFacts.

Import Effects EffectsFacts Service ServiceRuns.

Section Polling.

Context (port : Port Effect).

Lemma schedule_app c i xs ys :
  schedule c i (xs ++ ys) =
    schedule c i xs ++ schedule c (i + Z.of_nat (length xs))%Z ys.
Proof.
  revert i. induction xs as [|x xs IH]; intros i; simpl.
  - by rewrite Z.add_0_r.
  - rewrite IH. do 3 f_equal. f_equal. lia.
Qed.

(** The inner loop, started at attempt [k] with [S n] attempts left, the
    last of which is attempt [pollRetry]. *)
Lemma pollLoop_run pollRetry c n : ∀ k (w : World port),
  Z.of_nat (k + n) = pollRetry →
  ∃ answers err w',
    pollLoop port pollRetry c (Z.of_nat <$> seq k (S n)) w = Returns err w' ∧
    trace port w' = trace port w ++ schedule c (Z.of_nat k) answers ∧
    ((err = nil ∧ (length answers ≤ S n)%nat ∧
      ∃ bad good, answers = bad ++ [good] ∧
                  Forall (λ a, healthy a = false) bad ∧ healthy good = true)
     ∨ (is_Some err ∧ length answers = S n ∧
        Forall (λ a, healthy a = false) answers)).
Proof.
  induction n as [|n IH]; intros k w Hk.
  - (* the last attempt *)
    change (Z.of_nat <$> seq k 1) with [Z.of_nat k].
    unfold pollLoop. rewrite !bind_perform. simpl.
    destruct (answer port _ (Sleep _) (outside port w)) as [[] s1]. simpl.
    destruct (answer port _ (ContainerOk c) s1) as [[ok err] s2]. simpl.
    assert ((Z.of_nat k =? pollRetry)%Z = true) as -> by lia.
    exists [(ok, err)]. simpl. rewrite <- app_assoc. simpl.
    destruct err as [e|]; [|destruct ok]; simpl.
    + eexists _, _. split_and!; [done..|]. right.
      split_and!; [by eexists | done | by repeat constructor].
    + eexists _, _. split_and!; [done..|]. left.
      split_and!; [done | lia |]. exists [], (true, None). by split_and!.
    + eexists _, _. split_and!; [done..|]. right.
      split_and!; [by eexists | done | by repeat constructor].
  - (* an attempt before the last *)
    change (Z.of_nat <$> seq k (S (S n)))
      with (Z.of_nat k :: (Z.of_nat <$> seq (S k) (S n))).
    cbn [pollLoop]. rewrite !bind_perform. simpl.
    destruct (answer port _ (Sleep _) (outside port w)) as [[] s1]. simpl.
    destruct (answer port _ (ContainerOk c) s1) as [[ok err] s2]. simpl.
    assert ((Z.of_nat k =? pollRetry)%Z = false) as -> by lia.
    set (w2 := {| outside := s2; trace := _ |}).
    assert (healthy (ok, err) = false ∨ (err = None ∧ ok = true)) as [Hbad | [-> ->]].
    { destruct err; [by left|]. destruct ok; [by right | by left]. }
    + destruct (IH (S k) w2 ltac:(lia)) as (answers & err' & w' & Hrun & Htrace & Hres).
      exists ((ok, err) :: answers), err', w'. split_and!.
      * destruct err as [e|]; [done|]. destruct ok; [done|]. done.
      * rewrite Htrace. subst w2. simpl. rewrite <- !app_assoc. simpl.
        do 4 f_equal. lia.
      * destruct Hres as [(-> & Hlen & bad & good & -> & Hbads & Hgood) | (Herr & Hlen & Hall)].
        -- left. split_and!; [done | simpl; lia |].
           exists ((ok, err) :: bad), good. split_and!; [done | by constructor | done].
        -- right. split_and!; [done | simpl; lia | by constructor].
    + exists [(true, None)]. eexists _, _. split_and!; [done | |].
      * subst w2. simpl. by rewrite <- !app_assoc.
      * left. split_and!; [done | simpl; lia |].
        exists [], (true, None). by split_and!.
Qed.

(** One container: at most [pollRetry + 1] attempts, numbered from 0. *)
Lemma pollLoop_round pollRetry c (w : World port) :
  (0 ≤ pollRetry)%Z →
  ∃ answers err w',
    pollLoop port pollRetry c (attempts pollRetry) w = Returns err w' ∧
    trace port w' = trace port w ++ schedule c 0 answers ∧
    ((err = nil ∧ passed pollRetry answers) ∨
     (is_Some err ∧ exhausted pollRetry answers)).
Proof.
  intros Hpos. unfold attempts.
  replace (Z.to_nat (pollRetry + 1)) with (S (Z.to_nat pollRetry)) by lia.
  destruct (pollLoop_run pollRetry c (Z.to_nat pollRetry) 0%nat w ltac:(lia))
    as (answers & err & w' & Hrun & Htrace & Hres).
  exists answers, err, w'. split_and!; [done..|].
  destruct Hres as [(-> & Hlen & bad & good & -> & Hbad & Hgood) | (Herr & Hlen & Hall)].
  - left. split; [done|]. exists bad, good. split_and!; [done| |done..].
    rewrite length_app in Hlen. simpl in Hlen. lia.
  - right. split; [done|]. split; [lia | done].
Qed.

(** The outer loop: the containers in order, each with its own round; the
    first round that runs out ends the check. *)
Lemma healthLoop_run pollRetry cs : ∀ w : World port,
  (0 ≤ pollRetry)%Z →
  ∃ rounds err w',
    healthLoop port pollRetry cs w = Returns err w' ∧
    trace port w' = trace port w ++ rounds_events rounds ∧
    ((err = nil ∧ rounds.*1 = cs ∧
      Forall (λ r, passed pollRetry r.2) rounds)
     ∨ (is_Some err ∧
        ∃ before c answers after,
          rounds = before ++ [(c, answers)] ∧
          cs = before.*1 ++ c :: after ∧
          Forall (λ r, passed pollRetry r.2) before ∧
          exhausted pollRetry answers)).
Proof.
  induction cs as [|c cs IH]; intros w Hpos.
  - exists [], nil, w. split_and!; [done | by rewrite app_nil_r |]. left. by split_and!.
  - destruct (pollLoop_round pollRetry c w Hpos)
      as (answers & err & w1 & Hrun & Htrace & Hres).
    cbn [healthLoop]. unfold mbind, M_bind. rewrite Hrun.
    destruct Hres as [[-> Hpassed] | [[e ->] Hex]].
    + destruct (IH w1 Hpos) as (rounds & err' & w' & Hrun' & Htrace' & Hres').
      exists ((c, answers) :: rounds), err', w'. split_and!; [done | |].
      * rewrite Htrace', Htrace. unfold rounds_events. simpl. by rewrite app_assoc.
      * destruct Hres' as [(-> & Hcs & Hall) |
                           (Herr & before & c' & answers' & after & -> & -> & Hall & Hex)].
        -- left. split_and!; [done | by rewrite fmap_cons, Hcs | by constructor].
        -- right. split; [done|].
           exists ((c, answers) :: before), c', answers', after.
           split_and!; [done | done | by constructor | done].
    + exists [(c, answers)], (Some e), w1. split_and!; [done | |].
      * rewrite Htrace. unfold rounds_events. simpl. by rewrite app_nil_r.
      * right. split; [by eexists|]. exists [], c, answers, cs. by split_and!.
Qed.

(** C2 (amended). For every container list and every budget
    [pollRetry ≥ 0], the health check probes the containers one after the
    other, each in a round of its own starting at attempt 0; before attempt
    [i] it sleeps exactly [10·i] seconds; a round makes at most
    [pollRetry + 1] attempts (attempts 0 to [pollRetry]), ending at the first
    healthy answer; and the check fails exactly when the round of some
    container ran through all [pollRetry + 1] attempts without a healthy
    answer, the containers after it being left unprobed. *)
Theorem checkNewContainersHealth_schedule pollRetry cs (args : gmap string Value)
    (w : World port) :
  (0 ≤ pollRetry)%Z →
  args !! "newContainers" = Some (VKcontainers cs) →
  ∃ rounds err w',
    checkNewContainersHealthWith port pollRetry args w = Returns (args, err) w' ∧
    trace port w' = trace port w ++ rounds_events rounds ∧
    ((err = nil ∧ rounds.*1 = cs ∧
      Forall (λ r, passed pollRetry r.2) rounds)
     ∨ (is_Some err ∧
        ∃ before c answers after,
          rounds = before ++ [(c, answers)] ∧
          cs = before.*1 ++ c :: after ∧
          Forall (λ r, passed pollRetry r.2) before ∧
          exhausted pollRetry answers)).
Proof.
  intros Hpos Hargs.
  destruct (healthLoop_run pollRetry cs w Hpos)
    as (rounds & err & w' & Hrun & Htrace & Hres).
  exists rounds, err, w'. split_and!; [|done..].
  unfold checkNewContainersHealthWith, assertKcontainers. rewrite Hargs.
  unfold mbind, M_bind. simpl. unfold mret at 1, M_ret at 1. by rewrite Hrun.
Qed.

End Polling.

Lemma checkNewContainersHealth_schedule_witness :
  ∃ rounds err w',
    checkNewContainersHealth (lateRiser 10) webArgs (fresh_world 10)
      = Returns (webArgs, err) w' ∧
    trace _ w' = trace _ (fresh_world 10) ++ rounds_events rounds ∧
    ((err = nil ∧ rounds.*1 = [web1] ∧ Forall (λ r, passed 10 r.2) rounds)
     ∨ (is_Some err ∧
        ∃ before c answers after,
          rounds = before ++ [(c, answers)] ∧
          [web1] = before.*1 ++ c :: after ∧
          Forall (λ r, passed 10 r.2) before ∧
          exhausted 10 answers)).
Proof.
  apply (checkNewContainersHealth_schedule (lateRiser 10) 10 [web1] webArgs
           (fresh_world 10)).
  - lia.
  - reflexivity.
Defined.

(** C2 as stated fails: with the budget of 10 the source uses, a container
    that turns healthy at its eleventh probe is probed eleven times, and
    the check passes. *)
Lemma eleven_probes_on_a_budget_of_ten :
  ∃ w',
    checkNewContainersHealth (lateRiser 10) webArgs (fresh_world 10)
      = Returns (webArgs, nil) w' ∧
    probeCount web1 (trace _ w') = 11%nat ∧
    ¬ (probeCount web1 (trace _ w') ≤ 10)%nat.
Proof.
  eexists. split; [vm_compute; reflexivity|].
  split; [vm_compute; reflexivity|]. vm_compute. lia.
Qed.

(** [createContainers] creates exactly one container, whatever the
    configuration is: its [scale] is the constant 1. *)
Lemma createContainers_creates_one (port : Port Effect) (cfg : Kconfig)
    (args : gmap string Value) (w : World port) :
  args !! "config" = Some (VKconfig cfg) →
  ∃ args' err w',
    createContainers port args w = Returns (args', err) w' ∧
    (err = nil →
     ∃ c, args' = <["newContainers" := VKcontainers [c]]> args ∧
          trace port w' =
            trace port w ++ [Did (ContainerCreate cfg) (c, nil);
                             Did (Debugf "Created %d containers" 1) tt]).
Proof.
  intros Hcfg. unfold createContainers, assertKconfig. rewrite Hcfg.
  change (Z.to_nat 1) with 1%nat. cbn [createLoop].
  unfold mbind, M_bind, mret, M_ret, perform.
  destruct (answer port _ (ContainerCreate cfg) (outside port w)) as [[c err] s1].
  destruct err as [e|].
  - eexists _, _, _. split; [reflexivity|]. discriminate.
  - simpl.
    match goal with
    | |- context [answer port _ ?e s1] => destruct (answer port _ e s1) as [[] s2]
    end.
    eexists _, _, _. split; [reflexivity|]. intros _. exists c.
    split; [done|]. simpl. by rewrite <- app_assoc.
Qed.

End ServiceFacts.

(* ===================================================================== *)
(** * Properties of src/internal/deployment/deployment.go                 *)
(* ===================================================================== *)

Module DeploymentFacts.

Import Effects EffectsFacts Deployment DeploymentRuns Names.

(** Take the next call of a run apart: its answer and the world after it. *)
Tactic Notation "call_in" hyp(H) "as" simple_intropattern(a) ident(E) :=
  rewrite bind_perform in H;
  match type of H with
  | context [answer ?p ?A ?e ?s] =>
      destruct (answer p A e s) as [a ?] eqn:E; cbn [fst snd] in H
  end.

(** The same for the next call of the goal. *)
Tactic Notation "call" "as" simple_intropattern(a) :=
  rewrite bind_perform;
  match goal with
  | |- context [answer ?p ?A ?e ?s] =>
      destruct (answer p A e s) as [a ?]; cbn [fst snd outside trace]
  end.

Tactic Notation "last_call" "as" simple_intropattern(a) :=
  rewrite perform_run;
  match goal with
  | |- context [answer ?p ?A ?e ?s] =>
      destruct (answer p A e s) as [a ?]; cbn [fst snd outside trace]
  end.

Section Phases.

Context (port : Port Effect).

Lemma extends_step {A} (e : Effect A) (w : World port) a s1 :
  answer port A e (outside port w) = (a, s1) →
  extends port w [Did e a]
    {| outside := s1; trace := trace port w ++ [Did e a] |}.
Proof.
  intros E. split; [done|]. simpl. by exists s1.
Qed.

(** ** The loops, when they succeed *)

Lemma createLoop_ok config n : ∀ acc (w w' : World port) cs,
  createLoop port config n acc w = Returns (cs, nil) w' →
  ∃ made, cs = acc ++ made ∧ length made = n ∧
          extends port w (creates config made) w'.
Proof.
  induction n as [|n IH]; intros acc w w' cs H.
  - injection H as <- <-. exists []. split_and!; [by rewrite app_nil_r | done |].
    apply extends_refl.
  - cbn [createLoop] in H. call_in H as [c [e|]] E.
    + call_in H as [] E'. discriminate.
    + apply IH in H as (made & -> & Hlen & Hext).
      exists (c :: made). split_and!; [by rewrite <- app_assoc | simpl; lia |].
      change (creates config (c :: made))
        with ([Did (ContainerCreate config) (c, nil)] ++ creates config made).
      eapply extends_trans; [by apply extends_step | done].
Qed.

Lemma startLoop_ok cs : ∀ acc (w w' : World port) started,
  startLoop port cs acc w = Returns (started, nil) w' →
  started = acc ++ cs ∧ extends port w (calls ContainerStart cs) w'.
Proof.
  induction cs as [|c cs IH]; intros acc w w' started H.
  - injection H as <- <-. split; [by rewrite app_nil_r | apply extends_refl].
  - cbn [startLoop] in H. call_in H as [e|] E.
    + call_in H as [] E'. discriminate.
    + apply IH in H as (-> & Hext). split; [by rewrite <- app_assoc|].
      change (calls ContainerStart (c :: cs))
        with ([Did (ContainerStart c) nil] ++ calls ContainerStart cs).
      eapply extends_trans; [by apply extends_step | done].
Qed.

Lemma rangeLoop_ok method complaint cs : ∀ (w w' : World port),
  rangeLoop port method complaint cs w = Returns nil w' →
  extends port w (calls method cs) w'.
Proof.
  induction cs as [|c cs IH]; intros w w' H.
  - injection H as <-. apply extends_refl.
  - cbn [rangeLoop] in H. call_in H as [e|] E.
    + call_in H as [] E'. discriminate.
    + apply IH in H.
      change (calls method (c :: cs))
        with ([Did (method c) nil] ++ calls method cs).
      eapply extends_trans; [by apply extends_step | done].
Qed.

(** ** The phases, when they succeed *)

Lemma createStartCheck_ok config (w w' : World port) :
  createStartCheck port config w = Returns nil w' →
  ∃ cs, length cs = Z.to_nat (Scale config) ∧
        extends port w (createStartCheck_events config cs) w'.
Proof.
  intros H. unfold createStartCheck in H.
  unfold mbind at 1, M_bind at 1 in H.
  destruct (createLoop port config (Z.to_nat (Scale config)) [] w)
    as [[made err] w1|] eqn:Hcreate; [|done].
  destruct err as [e|]; [discriminate|].
  apply createLoop_ok in Hcreate as (cs & -> & Hlen & Hext1). simpl in H.
  call_in H as [] E2. pose proof (extends_step _ _ _ _ E2) as Hext2.
  unfold mbind at 1, M_bind at 1 in H.
  match type of H with
  | context [startLoop port cs [] ?w2] =>
      destruct (startLoop port cs [] w2) as [[started err] w3|] eqn:Hstart; [|done]
  end.
  destruct err as [e|]; [discriminate|].
  apply startLoop_ok in Hstart as (-> & Hext3). simpl in H.
  call_in H as [] E4. pose proof (extends_step _ _ _ _ E4) as Hext4.
  call_in H as err E5. pose proof (extends_step _ _ _ _ E5) as Hext5.
  destruct err as [e|].
  - call_in H as [] E6. discriminate.
  - injection H as <-. exists cs. split; [done|].
    unfold createStartCheck_events.
    eapply extends_trans; [exact Hext1|].
    eapply extends_trans; [exact Hext2|].
    eapply extends_trans; [exact Hext3|].
    change [?a; ?b] with ([a] ++ [b]).
    eapply extends_trans; [exact Hext4 | exact Hext5].
Qed.


Lemma Run_Run_ok config toRemove (w w' : World port) :
  Run_Run port (RunDeploymentJobArgs config toRemove) w = Returns nil w' →
  ∃ cs, length cs = Z.to_nat (Scale config) ∧
        extends port w (Run_Run_events config cs) w'.
Proof.
  intros H. unfold Run_Run in H.
  call_in H as [] E1. pose proof (extends_step _ _ _ _ E1) as Hext1.
  call_in H as err E2. pose proof (extends_step _ _ _ _ E2) as Hext2.
  destruct err as [e|]; [call_in H as [] E; discriminate|].
  apply createStartCheck_ok in H as (cs & Hlen & Hext3).
  exists cs. split; [done|]. unfold Run_Run_events.
  change [?a; ?b] with ([a] ++ [b]). rewrite <- app_assoc.
  eapply extends_trans; [exact Hext1|].
  eapply extends_trans; [exact Hext2 | exact Hext3].
Qed.

End Phases.

(** ** Lists of containers *)

Lemma filter_all {A} (P : A → Prop) `{!∀ x, Decision (P x)} (l : list A) :
  Forall P l → filter P l = l.
Proof.
  induction 1 as [|x l Hx Hl IH]; [done|].
  by rewrite filter_cons_True, IH.
Qed.

Lemma filter_none {A} (P : A → Prop) `{!∀ x, Decision (P x)} (l : list A) :
  Forall (λ x, ¬ P x) l → filter P l = [].
Proof.
  induction 1 as [|x l Hx Hl IH]; [done|].
  by rewrite filter_cons_False.
Qed.

Lemma foldl_without cs : ∀ v,
  foldl (λ v c, without (KraneContainer.ID c) v) v cs =
    filter (λ l, idOf l ∉ KraneContainer.ID <$> cs) v.
Proof.
  induction cs as [|c cs IH]; intros v; simpl.
  - symmetry. apply filter_all. apply Forall_forall. intros l _ Hin.
    by apply elem_of_nil in Hin.
  - rewrite IH. unfold without. rewrite list_filter_filter.
    apply list_filter_iff. intros l. rewrite not_elem_of_cons. tauto.
Qed.

Lemma foldl_setState cs : ∀ v,
  foldl (λ v c, setState (KraneContainer.ID c) running v) v cs =
    (λ l, if decide (idOf l ∈ KraneContainer.ID <$> cs)
          then inState running (container l) else l) <$> v.
Proof.
  induction cs as [|c cs IH]; intros v; simpl.
  - rewrite <- (list_fmap_id v) at 1. apply list_fmap_ext. intros i l _.
    done.
  - rewrite IH. unfold setState. rewrite <- list_fmap_compose.
    apply list_fmap_ext. intros i l _. simpl.
    destruct (decide (idOf l = KraneContainer.ID c)) as [Heq|Hne].
    + rewrite (decide_True (P := idOf l ∈ _ :: _)); [|rewrite Heq; left].
      by case_decide.
    + destruct (decide (idOf l ∈ KraneContainer.ID <$> cs)) as [Hin|Hnin].
      * rewrite decide_True; [done | by right].
      * rewrite decide_False; [done|]. rewrite not_elem_of_cons. done.
Qed.

Section Runtime.

Context (port : Port Effect) (view : State port → list Live).
Context (contract : RuntimeContract port view).

Lemma keeps_view {A} (e : Effect A) s a s' :
  touchesContainers e = false → answer port A e s = (a, s') → view s' = view s.
Proof.
  intros Ht Ha. pose proof (others_keep _ _ contract A e s Ht) as K.
  by rewrite Ha in K.
Qed.

Lemma replay_quiet evs : ∀ s s',
  forallb quiet evs = true → replay port s evs s' → view s' = view s.
Proof.
  induction evs as [|[A e a] evs IH]; intros s s' Hq; simpl.
  - by intros ->.
  - simpl in Hq. apply andb_prop in Hq as [Hq1 Hq2].
    intros (s1 & Hans & Hrest). rewrite (IH _ _ Hq2 Hrest).
    pose proof (others_keep _ _ contract A e s) as Hkeep.
    rewrite Hans in Hkeep. apply Hkeep. by destruct (touchesContainers e).
Qed.

Lemma replay_creates config cs : ∀ s s',
  replay port s (creates config cs) s' →
  view s' = view s ++ (inState created <$> cs) ∧
  Forall (λ c, KraneContainer.Deployment c = Name config ∧
               KraneContainer.ID c ∉ ids (view s)) cs.
Proof.
  induction cs as [|c cs IH]; intros s s'; simpl.
  - intros ->. split; [by rewrite app_nil_r | constructor].
  - intros (s1 & Hans & Hrest).
    destruct (create_adds _ _ contract _ _ _ _ Hans) as (Hlabel & Hfresh & Hview).
    destruct (IH _ _ Hrest) as [Hview' Hall].
    split.
    + rewrite Hview', Hview. by rewrite <- app_assoc.
    + constructor; [done|].
      eapply Forall_impl; [exact Hall|]. intros c' [? Hnin]. split; [done|].
      intros Hin. apply Hnin. rewrite Hview. unfold ids. rewrite fmap_app.
      apply elem_of_app. by left.
Qed.

Lemma replay_starts cs : ∀ s s',
  replay port s (calls ContainerStart cs) s' →
  view s' = foldl (λ v c, setState (KraneContainer.ID c) running v) (view s) cs.
Proof.
  induction cs as [|c cs IH]; intros s s'; simpl.
  - by intros ->.
  - intros (s1 & Hans & Hrest).
    rewrite (IH _ _ Hrest). by rewrite (start_runs _ _ contract _ _ _ Hans).
Qed.

Lemma replay_removes cs : ∀ s s',
  replay port s (calls ContainerRemove cs) s' →
  view s' = foldl (λ v c, without (KraneContainer.ID c) v) (view s) cs.
Proof.
  induction cs as [|c cs IH]; intros s s'; simpl.
  - by intros ->.
  - intros (s1 & Hans & Hrest).
    rewrite (IH _ _ Hrest). by rewrite (remove_removes _ _ contract _ _ _ Hans).
Qed.



End Runtime.

(** ** The simulated runtime keeps the contract *)

Lemma length_letters n : String.length (letters n) = n.
Proof.
  induction n as [|n IH]; [done|].
  change (letters (S n)) with (String (Ascii.ascii_of_nat 110) (letters n)).
  cbn [String.length]. by rewrite IH.
Qed.

Lemma freshID_fresh (names : list string) : freshID names ∉ names.
Proof.
  intros Hin.
  assert (String.length (freshID names) ∈ String.length <$> names) as Hlen
    by (apply list_elem_of_fmap; eauto).
  apply max_list_elem_of_le in Hlen.
  unfold freshID in Hlen. rewrite length_letters in Hlen. lia.
Qed.

Lemma sim_contract : RuntimeContract sim live.
Proof.
  split.
  - intros config s c s'. simpl. destruct (broken "ContainerCreate" s); [done|].
    intros [= <- <-]. simpl. split_and!; [done | apply freshID_fresh | done].
  - intros c s s'. simpl. destruct (broken "ContainerStart" s); [done|].
    by intros [= <-].
  - intros c s s'. simpl. destruct (broken "ContainerRemove" s); [done|].
    by intros [= <-].
  - intros d s cs s'. simpl. destruct (broken "GetContainersByDeployment" s); [done|].
    by intros [= <- <-].
  - intros A e s. destruct e; simpl; try discriminate; intros _;
      unfold storeCall;
      repeat match goal with
             | |- context [if ?b then _ else _] => destruct b
             | |- context [match ?o with Some _ => _ | None => _ end] => destruct o
             end; done.
Qed.


(** ** What the phases never do, and that they return *)

Section Totality.

Context (port : Port Effect) (P : Event Effect → Prop).

(** The calls other than [pull] all satisfy [P]. *)
Context (HP : ∀ A (e : Effect A) (a : A),
                match e with DockerPullImage _ _ _ => False | _ => True end →
                P (Did e a)).

Ltac walk :=
  repeat first
    [ apply always_ret
    | apply always_perform; intros; apply HP; exact I
    | apply always_bind; [|intros]
    | match goal with
      | |- always _ _ (match ?x with _ => _ end) => destruct x
      | |- always _ _ (if ?b then _ else _) => destruct b
      end ].

Lemma createLoop_always config n : ∀ acc, always port P (createLoop port config n acc).
Proof. induction n as [|n IH]; intros acc; cbn [createLoop]; walk. apply IH. Qed.

Lemma startLoop_always cs : ∀ acc, always port P (startLoop port cs acc).
Proof. induction cs as [|c cs IH]; intros acc; cbn [startLoop]; walk. apply IH. Qed.


Lemma createStartCheck_always config : always port P (createStartCheck port config).
Proof.
  unfold createStartCheck.
  apply always_bind; [apply createLoop_always|]. intros [made err].
  destruct err; walk. apply startLoop_always.
Qed.

End Totality.

Section Actions.

Context (port : Port Effect).

(** C3 (amended). The finalize phase of Delete deletes the secret
    collection, then the jobs collection, then the config, in that order,
    and stops at the first deletion that fails: the failure is logged and
    returned, and the later deletions are not attempted.  So the config is
    deleted last, and only when both collections were deleted. *)
Theorem Delete_Finally_fail_fast (d : string) (w : World port) :
  ∃ err w',
    Delete_Finally port (DeleteDeploymentJobArgs d) w = Returns err w' ∧
    ((∃ e, err = Some e ∧
           trace port w' = trace port w ++
             secretsStep d (Some e) ++
             complaint "unable to remove secrets collection %v" e)
     ∨ (∃ e, err = Some e ∧
             trace port w' = trace port w ++
               secretsStep d nil ++ jobsStep d (Some e) ++
               complaint "unable to remove jobs collection %v" e)
     ∨ (∃ e, err = Some e ∧
             trace port w' = trace port w ++
               secretsStep d nil ++ jobsStep d nil ++ configStep d (Some e) ++
               complaint "unable to remove deployment configuration %v" e)
     ∨ (err = nil ∧
        trace port w' = trace port w ++
          secretsStep d nil ++ jobsStep d nil ++ configStep d nil)).
Proof.
  unfold Delete_Finally.
  call as []. call as [e1|].
  { call as []. eexists _, _. split; [reflexivity|]. left. exists e1.
    split; [done|]. cbn [trace]. by rewrite <- !app_assoc. }
  call as []. call as [e2|].
  { call as []. eexists _, _. split; [reflexivity|]. right; left. exists e2.
    split; [done|]. cbn [trace]. by rewrite <- !app_assoc. }
  call as []. call as [e3|].
  { call as []. eexists _, _. split; [reflexivity|]. right; right; left. exists e3.
    split; [done|]. cbn [trace]. by rewrite <- !app_assoc. }
  eexists _, _. split; [reflexivity|]. right; right; right. split; [done|].
  cbn [trace]. by rewrite <- !app_assoc.
Qed.

(** C4 (amended). [Delete] checks nothing: for every deployment name and
    every state of the store it asks for a job ID and the retry policy,
    starts the goroutine that enqueues one Delete job for the name, and
    returns nil.  It never reads the deployment's config, so a missing
    deployment is not reported to the caller. *)
Theorem Delete_checks_nothing (d : string) (w : World port) :
  ∃ id retryPolicy w',
    Delete port d w = Returns nil w' ∧
    trace port w' = trace port w ++
      [Did UuidGenerate id;
       Did (UIntEnv EnvDeploymentRetryPolicy) retryPolicy;
       Did (Go_enqueue
              {| Job.ID := id;
                 Job.Deployment := d;
                 Job.Type_ := DeleteDeploymentAction;
                 Job.RetryPolicy := retryPolicy;
                 Job.Args := DeleteDeploymentJobArgs d |}) tt].
Proof.
  unfold Delete. call as id. call as retryPolicy. call as [].
  eexists id, retryPolicy, _. split; [reflexivity|].
  cbn [trace]. by rewrite <- !app_assoc.
Qed.

(** ** The goroutines *)

Lemma enqueue_returns (j : Job.t) (w : World port) :
  ∃ w', enqueue port j w = Returns tt w' ∧
        ∀ q e, (answer port _ (EnqueuerEnqueue j) (outside port w)).1 = (q, Some e) →
               trace port w' = trace port w ++
                 [Did (EnqueuerEnqueue j) (q, Some e);
                  Did (LoggerErrorf "Error enqueuing deployment job %v" [AErr e]) tt].
Proof.
  unfold enqueue. call as [q [e|]].
  - last_call as []. eexists. split; [reflexivity|]. intros q' e' Heq.
    simplify_eq. cbn [trace]. by rewrite <- !app_assoc.
  - last_call as []. eexists. split; [reflexivity|]. intros q' e' Heq.
    simplify_eq.
Qed.

Lemma runGoroutines_returns js : ∀ w : World port,
  ∃ w', runGoroutines port js w = Returns tt w'.
Proof.
  induction js as [|j js IH]; intros w; [by eexists|].
  cbn [runGoroutines]. unfold mbind, M_bind.
  destruct (enqueue_returns j w) as (w1 & -> & _). apply IH.
Qed.

(** Whatever the goroutines do, the caller gets what the action returned. *)
Lemma andThenGoroutines_returns {A} (action : M port A) (w w1 : World port) (a : A) :
  action w = Returns a w1 →
  ∃ w', andThenGoroutines port action w = Returns a w'.
Proof.
  intros H. unfold andThenGoroutines. rewrite H. unfold mbind, M_bind.
  match goal with
  | |- context [runGoroutines port ?js w1] =>
      destruct (runGoroutines_returns js w1) as (w2 & ->)
  end.
  by eexists.
Qed.

(** C5 (amended). When the queue refuses a job, [enqueue] logs the error
    and returns nothing; it runs in a goroutine of its own, so each of the
    five actions returns what it returns whatever the queue does: nil for
    Delete, StartContainers and StopContainers; for Run the error of the
    config lookup (nil when the config was read); for RestartContainers nil
    when the config was read and its own "unable to get configuration"
    error otherwise.  No action returns an error of the queue. *)
Theorem queue_errors_are_only_logged :
  (∀ j (w : World port),
     ∃ w', enqueue port j w = Returns tt w' ∧
           ∀ q e, (answer port _ (EnqueuerEnqueue j) (outside port w)).1 = (q, Some e) →
                  trace port w' = trace port w ++
                    [Did (EnqueuerEnqueue j) (q, Some e);
                     Did (LoggerErrorf "Error enqueuing deployment job %v" [AErr e]) tt]) ∧
  (∀ d (w : World port),
     (∃ w', andThenGoroutines port (Delete port d) w = Returns nil w') ∧
     (∃ w', andThenGoroutines port (StartContainers port d) w = Returns nil w') ∧
     (∃ w', andThenGoroutines port (StopContainers port d) w = Returns nil w') ∧
     (∃ w', andThenGoroutines port (Run port d) w = Returns (lookupError port d w) w') ∧
     (∃ w', andThenGoroutines port (RestartContainers port d) w =
              Returns (match lookupError port d w with
                       | Some _ =>
                           Errorf ("unable to get configuration for deployment " +:+ d)
                       | None => nil
                       end) w')).
Proof.
  split; [apply enqueue_returns|]. intros d w. split_and!.
  - destruct (Delete_checks_nothing d w) as (? & ? & w1 & H & _).
    by eapply andThenGoroutines_returns.
  - assert (∃ w1, StartContainers port d w = Returns nil w1) as [w1 H].
    { unfold StartContainers. call as ?. call as ?. call as []. by eexists. }
    by eapply andThenGoroutines_returns.
  - assert (∃ w1, StopContainers port d w = Returns nil w1) as [w1 H].
    { unfold StopContainers. call as ?. call as ?. call as []. by eexists. }
    by eapply andThenGoroutines_returns.
  - unfold lookupError.
    assert (∃ w1, Run port d w =
                  Returns (answer port _ (GetDeploymentConfig d) (outside port w)).1.2 w1)
      as [w1 H].
    { unfold Run. call as [config [e|]]; [by eexists|].
      call as ?. call as ?. call as []. by eexists. }
    by eapply andThenGoroutines_returns.
  - unfold lookupError.
    assert (∃ w1, RestartContainers port d w =
                  Returns (match (answer port _ (GetDeploymentConfig d)
                                    (outside port w)).1.2 with
                           | Some _ =>
                               Errorf ("unable to get configuration for deployment "
                                       +:+ d)
                           | None => nil
                           end) w1)
      as [w1 H].
    { unfold RestartContainers. call as [config [e|]]; [by eexists|].
      call as ?. call as ?. call as []. by eexists. }
    by eapply andThenGoroutines_returns.
Qed.


End Actions.

(** C3 as stated fails: when the secret collection cannot be deleted, the
    finalize phase returns that error and never asks for the jobs
    collection or the config to be deleted; both are still there. *)
Lemma later_deletions_not_attempted :
  ∃ w',
    Delete_Finally sim (DeleteDeploymentJobArgs "web") (start_of secretsStuck)
      = Returns (Some "StoreIO") w' ∧
    existsb isDeleteJobs (trace sim w') = false ∧
    existsb isDeleteConfig (trace sim w') = false ∧
    collections (outside sim w') = ["secrets:web"; "jobs:web"] ∧
    lookupConfig "web" (outside sim w') = Some web.
Proof. eexists. split_and!; vm_compute; reflexivity. Qed.

(** C4 as stated fails: no config is stored for "ghost", and still
    [Delete "ghost"] returns nil and its job ends up in the queue. *)
Lemma Delete_of_missing_deployment_is_enqueued :
  (simAnswer _ (GetDeploymentConfig "ghost") stored).1.2 = Some "StoreMissing" ∧
  ∃ w',
    andThenGoroutines sim (Delete sim "ghost") (start_of stored) = Returns nil w' ∧
    Job.Deployment <$> queue (outside sim w') = ["ghost"] ∧
    Job.Type_ <$> queue (outside sim w') = [DeleteDeploymentAction].
Proof. split; [reflexivity|]. eexists. split_and!; vm_compute; reflexivity. Qed.

(** C5 as stated fails: with the queue full, [Run "web"] returns nil, the
    job is in no queue, and the only trace of the failure is a log line. *)
Lemma full_queue_drops_the_job :
  ∃ w',
    andThenGoroutines sim (Run sim "web") (start_of queueFull) = Returns nil w' ∧
    queue (outside sim w') = [] ∧
    last (trace sim w') =
      Some (Did (LoggerErrorf "Error enqueuing deployment job %v" [AErr "QueueFull"]) tt).
Proof. eexists. split_and!; vm_compute; reflexivity. Qed.

End DeploymentFacts.

(* ===================================================================== *)
(** * More on src/docker/docker.go                                        *)
(* ===================================================================== *)

Module DockerMore.

Import Docker DockerContract DockerFacts Names.

(** [New] is idempotent and never talks to the engine: once it has
    returned a client, the client is stored, the engine and the record of
    requests are as before, and calling [New] again returns the same client
    without changing anything. *)
Theorem New_idempotent (sdk : Sdk) (w w1 : World sdk) (c : Client) :
  New sdk w = Returns (Some c, nil) w1 →
  dkrClient sdk w1 = Some c ∧
  engine sdk w1 = engine sdk w ∧
  wire sdk w1 = wire sdk w ∧
  New sdk w1 = Returns (Some c, nil) w1.
Proof.
  unfold New. destruct (dkrClient sdk w) as [c'|] eqn:Hc.
  - intros [= <- <-]. by rewrite Hc.
  - destruct (NewEnvClient sdk (engine sdk w)) as [client [e|]]; [done|].
    intros [= -> <-]. done.
Qed.

Lemma New_idempotent_witness :
  ∃ c w1,
    New simSdk cold = Returns (Some c, nil) w1 ∧
    dkrClient simSdk w1 = Some c ∧
    engine simSdk w1 = engine simSdk cold ∧
    wire simSdk w1 = wire simSdk cold ∧
    New simSdk w1 = Returns (Some c, nil) w1.
Proof.
  eexists _, _. split; [reflexivity|].
  apply (New_idempotent simSdk cold). reflexivity.
Defined.

(** When the environment gives no client, [New] returns the error, stores
    nothing, and the guarded operations keep refusing. *)
Theorem New_failure_leaves_nil (sdk : Sdk) (w : World sdk) client (e : string) ctx id :
  dkrClient sdk w = None →
  NewEnvClient sdk (engine sdk w) = (client, Some e) →
  New sdk w = Returns (None, Some e) w ∧
  StartContainer sdk ctx id w = Returns (Errorf "docker client not initialized") w.
Proof.
  intros Hc He. unfold New, StartContainer. by rewrite Hc, He.
Qed.

(** The loop of [GetNetworkByName] returns the first network of the name,
    and the value it started with when there is none. *)
Lemma firstNamed_head name nets kNet :
  firstNamed name nets kNet = default kNet (head (named name nets)).
Proof.
  induction nets as [|n rest IH]; [done|].
  unfold named. rewrite filter_cons. simpl.
  destruct (String.eqb (NetworkResource.Name n) name) eqn:E.
  - apply String.eqb_eq in E. rewrite decide_True; done.
  - apply String.eqb_neq in E. rewrite decide_False; [|done]. apply IH.
Qed.

(** [GetNetworkByName] on an initialised client sends one [NetworkList];
    an error of the listing comes back with the zero network; otherwise
    the result is the first listed network of that name, and when no
    network has the name it is the zero network with a nil error: an
    unknown name is not an error. *)
Theorem GetNetworkByName_first_or_zero (sdk : Sdk) ctx name (w : World sdk) :
  is_Some (dkrClient sdk w) →
  ∃ nets e s',
    serve sdk _ (NetworkList ctx NetworkListOptions_zero) (engine sdk w) = ((nets, e), s') ∧
    GetNetworkByName sdk ctx name w =
      Returns
        (match e with
         | Some msg => (NetworkResource.zero, Some msg)
         | None => (default NetworkResource.zero (head (named name nets)), nil)
         end)
        {| dkrClient := dkrClient sdk w; engine := s';
           wire := wire sdk w ++ [Call (NetworkList ctx NetworkListOptions_zero)] |}.
Proof.
  intros Hc.
  destruct (GetNetworkByName_initialised sdk ctx name w Hc) as (nets & e & s' & Hs & Hg).
  exists nets, e, s'. split; [done|]. rewrite Hg. destruct e; [done|].
  by rewrite firstNamed_head.
Qed.

Lemma GetNetworkByName_first_or_zero_witness :
  ∃ nets e s',
    serve simSdk _ (NetworkList Background NetworkListOptions_zero) (engine simSdk ready)
      = ((nets, e), s') ∧
    GetNetworkByName simSdk Background "krane" ready =
      Returns
        (match e with
         | Some msg => (NetworkResource.zero, Some msg)
         | None => (default NetworkResource.zero (head (named "krane" nets)), nil)
         end)
        {| dkrClient := dkrClient simSdk ready; engine := s';
           wire := wire simSdk ready ++ [Call (NetworkList Background NetworkListOptions_zero)] |}.
Proof.
  apply (GetNetworkByName_first_or_zero simSdk Background "krane" ready). by eexists.
Defined.

(** What [CreateBridgeNetwork] does by the answer of the listing, on an
    initialised client: a listing error is returned and nothing is created;
    a first network of the name with a non-empty ID is returned and nothing
    is created; otherwise (no network of the name, or one whose ID is
    empty) exactly one network is requested, with driver "bridge" and
    [CheckDuplicate], and the engine's answer is returned as it is. *)
Theorem CreateBridgeNetwork_by_listing (sdk : Sdk) ctx name (w : World sdk) nets e s1 :
  is_Some (dkrClient sdk w) →
  serve sdk _ (NetworkList ctx NetworkListOptions_zero) (engine sdk w) = ((nets, e), s1) →
  let listed := {| dkrClient := dkrClient sdk w; engine := s1;
                   wire := wire sdk w ++ [Call (NetworkList ctx NetworkListOptions_zero)] |} in
  let found := default NetworkResource.zero (head (named name nets)) in
  let options := {| NetworkCreate.Driver := "bridge";
                    NetworkCreate.CheckDuplicate := true |} in
  CreateBridgeNetwork sdk ctx name w =
    match e with
    | Some msg => Returns (NetworkCreateResponse.zero, Some msg) listed
    | None =>
        if decide (NetworkResource.ID found = "") then
          Returns (serve sdk _ (NetworkCreateReq ctx name options) s1).1
            {| dkrClient := dkrClient sdk w;
               engine := (serve sdk _ (NetworkCreateReq ctx name options) s1).2;
               wire := wire sdk listed ++ [Call (NetworkCreateReq ctx name options)] |}
        else
          Returns ({| NetworkCreateResponse.ID := NetworkResource.ID found;
                      NetworkCreateResponse.Warning := "" |}, nil) listed
    end.
Proof.
  intros Hc Hs listed found options. pose proof Hc as [c Hc'].
  destruct (GetNetworkByName_first_or_zero sdk ctx name w Hc) as (nets' & e' & s' & Hs' & Hg).
  rewrite Hs in Hs'. injection Hs' as <- <- <-.
  unfold CreateBridgeNetwork. rewrite Hc'. unfold mbind, M_bind. rewrite Hg.
  destruct e as [msg|]; [done|]. fold found.
  destruct (decide (NetworkResource.ID found = "")) as [Hid|Hid].
  - rewrite Hid. simpl. unfold invoke. simpl. rewrite Hc'.
    fold options. by destruct (serve sdk _ (NetworkCreateReq ctx name options) s1).
  - by rewrite (eqb_empty_false _ Hid).
Qed.

Lemma CreateBridgeNetwork_by_listing_witness :
  CreateBridgeNetwork simSdk Background "krane" ready =
    Returns ({| NetworkCreateResponse.ID := "n"; NetworkCreateResponse.Warning := "" |}, nil)
      {| dkrClient := dkrClient simSdk ready;
         engine := ([{| NetworkResource.Name := "krane"; NetworkResource.ID := "n" |}]
                    : Engine simSdk);
         wire := [Call (NetworkList Background NetworkListOptions_zero);
                  Call (NetworkCreateReq Background "krane"
                          {| NetworkCreate.Driver := "bridge";
                             NetworkCreate.CheckDuplicate := true |})] |}.
Proof.
  refine (CreateBridgeNetwork_by_listing simSdk Background "krane" ready [] None
            ([] : Engine simSdk) _ _).
  - by eexists.
  - reflexivity.
Defined.

(** A container port that [nat.NewPort] rejects: [CreateContainer]
    returns that error and sends nothing to the engine. *)
Theorem CreateContainer_bad_port (sdk : Sdk) (w : World sdk) ctx
    (image deploymentName containerName networkID hPort cPort : string) p (e : string) :
  is_Some (dkrClient sdk w) →
  NewPort sdk "tcp" cPort = (p, Some e) →
  CreateContainer sdk ctx image deploymentName containerName networkID hPort cPort w
    = Returns (ContainerCreateCreatedBody.zero, Some e) w.
Proof. intros [c Hc] Hp. unfold CreateContainer. by rewrite Hc, Hp. Qed.

Lemma CreateContainer_bad_port_witness :
  CreateContainer noPortSdk Background "nginx" "web" "web-01" "net1" "8080" "http" readyNoPort
    = Returns (ContainerCreateCreatedBody.zero, Some "invalid port http") readyNoPort.
Proof.
  apply (CreateContainer_bad_port noPortSdk readyNoPort Background
           "nginx" "web" "web-01" "net1" "8080" "http" "").
  - by eexists.
  - reflexivity.
Defined.

(** The port binding and the network attachment of the specification
    [CreateContainer] sends: the container port is bound to exactly one
    host binding, [0.0.0.0:hPort], containers are not auto-removed, and the
    only network endpoint is "krane" with the given network ID. *)
Theorem CreateContainer_binds_port (sdk : Sdk) (w : World sdk) ctx
    (image deploymentName containerName networkID hPort cPort : string)
    (containerPort : Port) :
  is_Some (dkrClient sdk w) →
  NewPort sdk "tcp" cPort = (containerPort, nil) →
  ∃ conf result w',
    CreateContainer sdk ctx image deploymentName containerName networkID hPort cPort w
      = Returns result w' ∧
    wire sdk w' = wire sdk w ++
      [Call (ContainerCreate ctx conf
               {| PortBindings :=
                    {[ containerPort := [{| HostIP := "0.0.0.0"; HostPort := hPort |}] ]};
                  AutoRemove := false |}
               {| EndpointsConfig := {[ "krane" := {| NetworkID := networkID |} ]} |}
               containerName)] ∧
    result = (serve sdk _ (ContainerCreate ctx conf
               {| PortBindings :=
                    {[ containerPort := [{| HostIP := "0.0.0.0"; HostPort := hPort |}] ]};
                  AutoRemove := false |}
               {| EndpointsConfig := {[ "krane" := {| NetworkID := networkID |} ]} |}
               containerName) (engine sdk w)).1.
Proof.
  intros [c Hc] Hport. unfold CreateContainer. rewrite Hc, Hport. unfold invoke.
  match goal with
  | |- context [serve sdk _ ?r ?e] => destruct (serve sdk _ r e) as [res e'] eqn:E
  end.
  eexists _, _, _. split; [reflexivity|]. simpl. split; [done|]. by rewrite E.
Qed.

Lemma CreateContainer_binds_port_witness :
  ∃ conf result w',
    CreateContainer simSdk Background "nginx:1.25" "web" "web-01" "net1" "8080" "80" ready
      = Returns result w' ∧
    wire simSdk w' = wire simSdk ready ++
      [Call (ContainerCreate Background conf
               {| PortBindings :=
                    {[ "80/tcp" := [{| HostIP := "0.0.0.0"; HostPort := "8080" |}] ]};
                  AutoRemove := false |}
               {| EndpointsConfig := {[ "krane" := {| NetworkID := "net1" |} ]} |}
               "web-01")] ∧
    result = (serve simSdk _ (ContainerCreate Background conf
               {| PortBindings :=
                    {[ "80/tcp" := [{| HostIP := "0.0.0.0"; HostPort := "8080" |}] ]};
                  AutoRemove := false |}
               {| EndpointsConfig := {[ "krane" := {| NetworkID := "net1" |} ]} |}
               "web-01") (engine simSdk ready)).1.
Proof.
  apply (CreateContainer_binds_port simSdk ready Background
           "nginx:1.25" "web" "web-01" "net1" "8080" "80" "80/tcp").
  - by eexists.
  - reflexivity.
Defined.

(** An empty tag and the tag "latest" give the same image reference, and
    the reference never ends in an empty tag. *)
Theorem FormatImageSourceURL_default_tag (repo imageName tag : string) :
  FormatImageSourceURL repo imageName "" = FormatImageSourceURL repo imageName "latest" ∧
  ∃ t, t ≠ "" ∧ FormatImageSourceURL repo imageName tag =
                  repo +:+ "/" +:+ imageName +:+ ":" +:+ t.
Proof.
  split; [done|]. unfold FormatImageSourceURL.
  destruct (String.eqb tag "") eqn:E.
  - by exists "latest".
  - apply String.eqb_neq in E. by exists tag.
Qed.

End DockerMore.

(* ===================================================================== *)
(** * More on src/unnamed/part_000                                        *)
(* ===================================================================== *)

Module ServiceMore.

Import Effects EffectsFacts Service ServiceRuns ServiceFacts.

Section Steps.

Context (port : Port Effect).

(** The loop of [startContainers]: the containers are started in order
    and the loop ends at the first start that fails. *)
Lemma startLoop_run cs : ∀ n (w : World port),
  ∃ n' err w',
    startLoop port cs n w = Returns (n', err) w' ∧
    ((err = nil ∧ n' = (n + Z.of_nat (length cs))%Z ∧
      trace port w' = trace port w ++ started cs)
     ∨ (∃ e before c after,
          err = Some e ∧ cs = before ++ c :: after ∧
          trace port w' = trace port w ++ started before ++
                            [Did (ContainerStart c) (Some e)])).
Proof.
  induction cs as [|c cs IH]; intros n w.
  - exists n, nil, w. split; [done|]. left.
    split_and!; [done | simpl; lia | by rewrite app_nil_r].
  - cbn [startLoop]. rewrite bind_perform.
    destruct (answer port _ (ContainerStart c) (outside port w)) as [[e|] s1];
      cbn [fst snd].
    + eexists _, _, _. split; [reflexivity|]. right. exists e, [], c, cs.
      split_and!; done.
    + match goal with
      | |- context [startLoop port cs ?m ?w1] =>
          destruct (IH m w1) as (n' & err & w' & -> & Hres)
      end.
      exists n', err, w'. split; [done|].
      destruct Hres as [(-> & -> & Ht) | (e & before & c' & after & -> & -> & Ht)].
      * left. split_and!; [done | simpl; lia |].
        rewrite Ht. cbn [trace]. by rewrite <- app_assoc.
      * right. exists e, (c :: before), c', after. split_and!; [done..|].
        rewrite Ht. cbn [trace]. by rewrite <- !app_assoc.
Qed.

Lemma startContainers_outcome (cs : list Kcontainer)
    (args : gmap string Value) (w : World port) :
  args !! "newContainers" = Some (VKcontainers cs) →
  ∃ err w',
    startContainers port args w = Returns (args, err) w' ∧
    ((err = nil ∧
      trace port w' = trace port w ++ started cs ++
        [Did (Debugf "Started %d containers" (Z.of_nat (length cs))) tt])
     ∨ (∃ e before c after,
          err = Some e ∧ cs = before ++ c :: after ∧
          trace port w' = trace port w ++ started before ++
                            [Did (ContainerStart c) (Some e)])).
Proof.
  intros Hargs. unfold startContainers, assertKcontainers. rewrite Hargs.
  unfold mbind at 1, M_bind at 1. unfold mret at 1, M_ret at 1.
  unfold mbind at 1, M_bind at 1.
  destruct (startLoop_run cs 0%Z w) as (n' & err & w1 & -> & Hres).
  destruct Hres as [(-> & -> & Ht) | (e & before & c & after & -> & -> & Ht)].
  - rewrite bind_perform.
    match goal with
    | |- context [answer port ?A ?e ?s] =>
        destruct (answer port A e s) as [[] s2]; cbn [fst snd]
    end.
    eexists _, _. split; [reflexivity|]. left. split; [done|].
    cbn [trace]. rewrite Ht, <- app_assoc. repeat f_equal; lia.
  - eexists _, _. split; [reflexivity|]. right. exists e, before, c, after. done.
Qed.

(** [startContainers] starts the new containers in the order of the list
    and stops at the first start that fails: that error is returned, the
    containers after it are not started, and nothing is logged; when all
    start, it logs their number.  The arguments are left as they were. *)
Theorem startContainers_stops_at_first_failure (cs : list Kcontainer)
    (args : gmap string Value) (w : World port) :
  args !! "newContainers" = Some (VKcontainers cs) →
  ∃ err w',
    startContainers port args w = Returns (args, err) w' ∧
    ((err = nil ∧
      trace port w' = trace port w ++ started cs ++
        [Did (Debugf "Started %d containers" (Z.of_nat (length cs))) tt])
     ∨ (∃ e before c after,
          err = Some e ∧ cs = before ++ c :: after ∧
          trace port w' = trace port w ++ started before ++
                            [Did (ContainerStart c) (Some e)])).
Proof. apply startContainers_outcome. Qed.

(** The health check for a given budget, by the outer loop. *)
Lemma checkHealthWith_by_loop pollRetry (cs : list Kcontainer)
    (args : gmap string Value) (w : World port) :
  args !! "newContainers" = Some (VKcontainers cs) →
  checkNewContainersHealthWith port pollRetry args w =
    match healthLoop port pollRetry cs w with
    | Returns err w' => Returns (args, err) w'
    | Panics msg => Panics msg
    end.
Proof.
  intros Hargs. unfold checkNewContainersHealthWith, assertKcontainers.
  rewrite Hargs. unfold mbind, M_bind. unfold mret at 1, M_ret at 1.
  by destruct (healthLoop port pollRetry cs w).
Qed.

(** What [createContainers] returns and records. *)
Lemma createContainers_outcome (cfg : Kconfig) (args : gmap string Value)
    (w : World port) :
  args !! "config" = Some (VKconfig cfg) →
  ∃ args' err w',
    createContainers port args w = Returns (args', err) w' ∧
    (err = nil → ∃ c, args' = <["newContainers" := VKcontainers [c]]> args).
Proof.
  intros Hcfg. unfold createContainers, assertKconfig. rewrite Hcfg.
  change (Z.to_nat 1) with 1%nat. cbn [createLoop].
  unfold mbind, M_bind, mret, M_ret, perform.
  destruct (answer port _ (ContainerCreate cfg) (outside port w)) as [[c err] s1].
  destruct err as [e|].
  - eexists _, _, _. split; [reflexivity|]. discriminate.
  - simpl.
    match goal with
    | |- context [answer port _ ?e s1] => destruct (answer port _ e s1) as [[] s2]
    end.
    eexists _, _, _. split; [reflexivity|]. intros _. by exists c.
Qed.


(** The steps compose: after a successful [createContainers], the argument
    map holds what [startContainers] and [checkNewContainersHealth] assert,
    so both return (no panic), and the config is still there for the steps
    that read it. *)
Theorem steps_after_createContainers (cfg : Kconfig) (args args1 : gmap string Value)
    (w w1 : World port) :
  args !! "config" = Some (VKconfig cfg) →
  createContainers port args w = Returns (args1, nil) w1 →
  args1 !! "config" = Some (VKconfig cfg) ∧
  (∃ r w2, startContainers port args1 w1 = Returns r w2) ∧
  (∃ r w2, checkNewContainersHealth port args1 w1 = Returns r w2).
Proof.
  intros Hcfg Hrun.
  destruct (createContainers_outcome cfg args w Hcfg)
    as (args' & err & w' & Hrun' & Hok).
  rewrite Hrun in Hrun'. injection Hrun' as <- <- <-.
  destruct (Hok eq_refl) as (c & ->).
  assert (<["newContainers" := VKcontainers [c]]> args !! "newContainers"
          = Some (VKcontainers [c])) as Hnew by apply lookup_insert_eq.
  split_and!.
  - by rewrite lookup_insert_ne.
  - destruct (startContainers_outcome [c] _ w1 Hnew) as (r & w2 & -> & _).
    by eexists _, _.
  - unfold checkNewContainersHealth.
    rewrite (checkHealthWith_by_loop 10 [c] _ w1 Hnew).
    destruct (healthLoop_run port 10 [c] w1 ltac:(lia)) as (rounds & r & w2 & -> & _).
    by eexists _, _.
Qed.

(** ** Time asleep *)

Lemma sleepTotal_app t1 t2 :
  sleepTotal (t1 ++ t2) = (sleepTotal t1 + sleepTotal t2)%Z.
Proof.
  induction t1 as [|ev t1 IH]; [done|].
  unfold sleepTotal in *. simpl. rewrite IH. lia.
Qed.

(** Attempts [i], [i+1], ... sleep [10·i], [10·(i+1)], ... seconds. *)
Lemma sleepTotal_schedule c answers : ∀ i,
  sleepTotal (schedule c i answers) =
    (Docker.Second *
       (10 * i * Z.of_nat (length answers)
        + 5 * Z.of_nat (length answers) * (Z.of_nat (length answers) - 1)))%Z.
Proof.
  induction answers as [|a answers IH]; intros i.
  - simpl. lia.
  - cbn [schedule probe app]. unfold sleepTotal in *. cbn [foldr slept].
    rewrite IH. cbn [length]. lia.
Qed.

Lemma round_sleep_bound pollRetry c answers :
  (0 ≤ pollRetry)%Z →
  (Z.of_nat (length answers) ≤ pollRetry + 1)%Z →
  (0 ≤ sleepTotal (schedule c 0 answers)
     ≤ 5 * pollRetry * (pollRetry + 1) * Docker.Second)%Z.
Proof.
  intros Hpos Hlen. rewrite sleepTotal_schedule. unfold Docker.Second.
  destruct answers as [|a answers]; [simpl; nia|].
  cbn [length] in *. nia.
Qed.

Lemma passed_length pollRetry answers :
  passed pollRetry answers → (Z.of_nat (length answers) ≤ pollRetry + 1)%Z.
Proof.
  intros (bad & good & -> & Hlen & _). rewrite length_app. simpl. lia.
Qed.

Lemma rounds_sleep_bound pollRetry rounds :
  (0 ≤ pollRetry)%Z →
  Forall (λ r, (Z.of_nat (length r.2) ≤ pollRetry + 1)%Z) rounds →
  (0 ≤ sleepTotal (rounds_events rounds)
     ≤ Z.of_nat (length rounds) * (5 * pollRetry * (pollRetry + 1) * Docker.Second))%Z.
Proof.
  intros Hpos. induction 1 as [|[c answers] rounds Hlen Hall IH].
  - simpl. lia.
  - unfold rounds_events in *. cbn [flat_map]. rewrite sleepTotal_app.
    pose proof (round_sleep_bound pollRetry c answers Hpos Hlen).
    cbn [length]. lia.
Qed.

(** The health check sleeps at most [5·pollRetry·(pollRetry+1)] seconds per
    container, whatever the containers answer: 550 seconds each with the
    source's budget of 10. *)
Theorem checkNewContainersHealth_sleep_bound pollRetry (cs : list Kcontainer)
    (args : gmap string Value) (w : World port) :
  (0 ≤ pollRetry)%Z →
  args !! "newContainers" = Some (VKcontainers cs) →
  ∃ err w' evs,
    checkNewContainersHealthWith port pollRetry args w = Returns (args, err) w' ∧
    trace port w' = trace port w ++ evs ∧
    (0 ≤ sleepTotal evs
       ≤ Z.of_nat (length cs) * (5 * pollRetry * (pollRetry + 1) * Docker.Second))%Z.
Proof.
  intros Hpos Hargs.
  destruct (healthLoop_run port pollRetry cs w Hpos)
    as (rounds & err & w' & Hrun & Htrace & Hres).
  exists err, w', (rounds_events rounds). split; [|split; [done|]].
  { by rewrite (checkHealthWith_by_loop pollRetry cs args w Hargs), Hrun. }
  assert (Forall (λ r, (Z.of_nat (length r.2) ≤ pollRetry + 1)%Z) rounds
          ∧ (length rounds ≤ length cs)%nat) as [Hall Hlen].
  { destruct Hres as [(_ & <- & Hall) | (_ & before & c & answers & after & -> & -> & Hall & Hex)].
    - split; [|by rewrite length_fmap].
      eapply Forall_impl; [exact Hall|]. intros r. apply passed_length.
    - split.
      + apply Forall_app. split.
        * eapply Forall_impl; [exact Hall|]. intros r. apply passed_length.
        * apply Forall_singleton. destruct Hex as [Hex _]. simpl. lia.
      + rewrite !length_app, length_fmap. simpl. lia. }
  pose proof (rounds_sleep_bound pollRetry rounds Hpos Hall) as Hb.
  assert (0 ≤ 5 * pollRetry * (pollRetry + 1) * Docker.Second)%Z
    by (unfold Docker.Second; nia).
  split; [lia|]. nia.
Qed.

End Steps.

Lemma startContainers_stops_at_first_failure_witness :
  ∃ err w',
    startContainers (lateRiser 0) webArgs (fresh_world 0) = Returns (webArgs, err) w' ∧
    ((err = nil ∧
      trace _ w' = trace _ (fresh_world 0) ++ started [web1] ++
        [Did (Debugf "Started %d containers" (Z.of_nat (length [web1]))) tt])
     ∨ (∃ e before c after,
          err = Some e ∧ [web1] = before ++ c :: after ∧
          trace _ w' = trace _ (fresh_world 0) ++ started before ++
                         [Did (ContainerStart c) (Some e)])).
Proof.
  apply (startContainers_stops_at_first_failure (lateRiser 0) [web1] webArgs
           (fresh_world 0)).
  reflexivity.
Defined.


Lemma steps_after_createContainers_witness :
  ∃ args1 w1,
    createContainers (lateRiser 0) configArgs (fresh_world 0) = Returns (args1, nil) w1 ∧
    args1 !! "config" = Some (VKconfig webConfig) ∧
    (∃ r w2, startContainers (lateRiser 0) args1 w1 = Returns r w2) ∧
    (∃ r w2, checkNewContainersHealth (lateRiser 0) args1 w1 = Returns r w2).
Proof.
  eexists _, _. split; [vm_compute; reflexivity|].
  eapply (steps_after_createContainers (lateRiser 0) webConfig configArgs _
            (fresh_world 0)).
  - reflexivity.
  - vm_compute; reflexivity.
Defined.

Lemma checkNewContainersHealth_sleep_bound_witness :
  ∃ err w' evs,
    checkNewContainersHealth (lateRiser 10) webArgs (fresh_world 10)
      = Returns (webArgs, err) w' ∧
    trace _ w' = trace _ (fresh_world 10) ++ evs ∧
    (0 ≤ sleepTotal evs ≤ Z.of_nat (length [web1]) * (5 * 10 * (10 + 1) * Docker.Second))%Z.
Proof.
  apply (checkNewContainersHealth_sleep_bound (lateRiser 10) 10 [web1] webArgs
           (fresh_world 10)).
  - lia.
  - reflexivity.
Defined.

Lemma createContainers_creates_one_witness :
  ∃ args' err w',
    createContainers (lateRiser 0) configArgs (fresh_world 0) = Returns (args', err) w' ∧
    (err = nil →
     ∃ c, args' = <["newContainers" := VKcontainers [c]]> configArgs ∧
          trace _ w' =
            trace _ (fresh_world 0) ++ [Did (ContainerCreate webConfig) (c, nil);
                                        Did (Debugf "Created %d containers" 1) tt]).
Proof.
  apply (createContainers_creates_one (lateRiser 0) webConfig configArgs (fresh_world 0)).
  reflexivity.
Defined.

End ServiceMore.

(* ===================================================================== *)
(** * More on src/internal/deployment/deployment.go                       *)
(* ===================================================================== *)

Module DeploymentMore.

Import Effects EffectsFacts Deployment DeploymentRuns DeploymentFacts Names.

Lemma existsb_none {A} (f : A → bool) (l : list A) :
  Forall (λ x, f x = false) l → existsb f l = false.
Proof. induction 1 as [|x l Hx Hl IH]; [done|]. simpl. by rewrite Hx, IH. Qed.

Section Actions.

Context (port : Port Effect).

(** ** The actions *)

(** When the config cannot be read, [Run] returns the error of the lookup
    and [RestartContainers] an error of its own that only names the
    deployment; neither asks for a job ID nor starts a goroutine, so no job
    is enqueued. *)
Theorem no_config_no_job (d : string) (w : World port) cfg (e : string) s1 :
  answer port _ (GetDeploymentConfig d) (outside port w) = ((cfg, Some e), s1) →
  let w1 := {| outside := s1;
               trace := trace port w ++ [Did (GetDeploymentConfig d) (cfg, Some e)] |} in
  Run port d w = Returns (Some e) w1 ∧
  RestartContainers port d w =
    Returns (Errorf ("unable to get configuration for deployment " +:+ d)) w1.
Proof.
  intros Hans w1. unfold Run, RestartContainers.
  rewrite !bind_perform, Hans. done.
Qed.

(** Every action that returns nil has started exactly one goroutine, for a
    job of its own type with an empty list of containers to remove.  The
    job of [Run] is filed under the name stored in the config, the jobs of
    the other actions under the name the caller gave. *)
Theorem one_job_per_action (d : string) (w : World port) :
  (∀ w', Run port d w = Returns nil w' →
     ∃ cfg id retryPolicy,
       (answer port _ (GetDeploymentConfig d) (outside port w)).1 = (cfg, nil) ∧
       spawned (drop (length (trace port w)) (trace port w')) =
         [{| Job.ID := id; Job.Deployment := Name cfg;
             Job.Type_ := RunDeploymentAction; Job.RetryPolicy := retryPolicy;
             Job.Args := RunDeploymentJobArgs cfg [] |}]) ∧
  (∀ w', RestartContainers port d w = Returns nil w' →
     ∃ cfg id retryPolicy,
       (answer port _ (GetDeploymentConfig d) (outside port w)).1 = (cfg, nil) ∧
       spawned (drop (length (trace port w)) (trace port w')) =
         [{| Job.ID := id; Job.Deployment := d;
             Job.Type_ := RestartContainersAction; Job.RetryPolicy := retryPolicy;
             Job.Args := RestartContainersJobArgs cfg [] |}]) ∧
  (∃ id retryPolicy w',
     StartContainers port d w = Returns nil w' ∧
     spawned (drop (length (trace port w)) (trace port w')) =
       [{| Job.ID := id; Job.Deployment := d;
           Job.Type_ := StartContainersAction; Job.RetryPolicy := retryPolicy;
           Job.Args := StartContainersJobArgs d |}]) ∧
  (∃ id retryPolicy w',
     StopContainers port d w = Returns nil w' ∧
     spawned (drop (length (trace port w)) (trace port w')) =
       [{| Job.ID := id; Job.Deployment := d;
           Job.Type_ := StopContainersAction; Job.RetryPolicy := retryPolicy;
           Job.Args := StopContainersJobArgs d |}]).
Proof.
  split_and!.
  - intros w'. unfold Run. call as [cfg [e|]]; [discriminate|].
    call as id. call as retryPolicy. call as []. intros [= <-].
    exists cfg, id, retryPolicy. split; [done|]. cbn [trace].
    rewrite <- !app_assoc. by rewrite drop_app_length.
  - intros w'. unfold RestartContainers. call as [cfg [e|]]; [discriminate|].
    call as id. call as retryPolicy. call as []. intros [= <-].
    exists cfg, id, retryPolicy. split; [done|]. cbn [trace].
    rewrite <- !app_assoc. by rewrite drop_app_length.
  - unfold StartContainers. call as id. call as retryPolicy. call as [].
    eexists id, retryPolicy, _. split; [reflexivity|]. cbn [trace].
    rewrite <- !app_assoc. by rewrite drop_app_length.
  - unfold StopContainers. call as id. call as retryPolicy. call as [].
    eexists id, retryPolicy, _. split; [reflexivity|]. cbn [trace].
    rewrite <- !app_assoc. by rewrite drop_app_length.
Qed.

(** ** The loops over containers *)

(** A range loop calls [method] on the containers in order and ends at the
    first call that fails: the failure is logged with [complaint] and
    returned, and the containers after it are not touched. *)
Lemma rangeLoop_run method complaint cs : ∀ w : World port,
  ∃ err w',
    rangeLoop port method complaint cs w = Returns err w' ∧
    ((err = nil ∧ trace port w' = trace port w ++ calls method cs)
     ∨ (∃ e before c after,
          err = Some e ∧ cs = before ++ c :: after ∧
          trace port w' = trace port w ++ calls method before ++
            [Did (method c) (Some e); Did (LoggerErrorf complaint [AErr e]) tt])).
Proof.
  induction cs as [|c cs IH]; intros w.
  - exists nil, w. split; [done|]. left. split; [done|]. by rewrite app_nil_r.
  - cbn [rangeLoop]. call as [e|].
    + call as []. eexists _, _. split; [reflexivity|]. right.
      exists e, [], c, cs. split_and!; [done..|]. cbn [trace].
      by rewrite <- !app_assoc.
    + match goal with
      | |- context [rangeLoop port method complaint cs ?w1] =>
          destruct (IH w1) as (err & w' & -> & Hres)
      end.
      exists err, w'. split; [done|].
      destruct Hres as [(-> & Ht) | (e & before & c' & after & -> & -> & Ht)].
      * left. split; [done|]. rewrite Ht. cbn [trace]. by rewrite <- app_assoc.
      * right. exists e, (c :: before), c', after. split_and!; [done..|].
        rewrite Ht. cbn [trace]. by rewrite <- !app_assoc.
Qed.

(** The finalize phases of [Run] and [RestartContainers] remove the
    containers of the snapshot in order and stop at the first removal that
    fails: the error is logged and returned, and the old containers after
    it are left in the runtime. *)
Theorem Finally_stops_at_first_failure (config : Config)
    (old : list KraneContainer.t) (w : World port) :
  Run_Finally port (RunDeploymentJobArgs config old) w =
    RestartContainers_Finally port (RestartContainersJobArgs config old) w ∧
  ∃ err w',
    Run_Finally port (RunDeploymentJobArgs config old) w = Returns err w' ∧
    ((err = nil ∧ trace port w' = trace port w ++ calls ContainerRemove old)
     ∨ (∃ e before c after,
          err = Some e ∧ old = before ++ c :: after ∧
          trace port w' = trace port w ++ calls ContainerRemove before ++
            [Did (ContainerRemove c) (Some e);
             Did (LoggerErrorf "unable to remove container %v" [AErr e]) tt])).
Proof. split; [done|]. apply rangeLoop_run. Qed.

(** [StartContainers] and [StopContainers] need containers: when the
    listing comes back empty, the run phase returns the error
    "deployment <name> has 0 containers to start" (or "to stop") after the
    listing, without starting or stopping anything. *)
Theorem start_stop_need_containers (d : string) (w : World port) s1 :
  answer port _ (GetContainersByDeployment d) (outside port w) = (([], nil), s1) →
  let w1 := {| outside := s1;
               trace := trace port w ++ [Did (GetContainersByDeployment d) ([], nil)] |} in
  StartContainers_Run port (StartContainersJobArgs d) w =
    Returns (Errorf ("deployment " +:+ d +:+ " has 0 containers to start")) w1 ∧
  StopContainers_Run port (StopContainersJobArgs d) w =
    Returns (Errorf ("deployment " +:+ d +:+ " has 0 containers to stop")) w1.
Proof.
  intros Hans w1. unfold StartContainers_Run, StopContainers_Run.
  rewrite !bind_perform, Hans. done.
Qed.

(** ** The run phase *)

(** A failed image pull ends the run phase of [Run] at once: the error is
    returned and no container is created or started. *)
Theorem failed_pull_creates_nothing (config : Config)
    (toRemove : list KraneContainer.t) (w : World port) :
  ∃ r w' evs,
    Run_Run port (RunDeploymentJobArgs config toRemove) w = Returns r w' ∧
    trace port w' = trace port w ++ evs ∧
    (existsb isFailedPull evs = true →
     is_Some r ∧ existsb isCreate evs = false ∧ existsb isStart evs = false).
Proof.
  unfold Run_Run. call as []. call as [e|].
  - call as []. eexists _, _, _. split; [reflexivity|]. cbn [trace].
    split; [by rewrite <- !app_assoc|]. intros _. split_and!; [by eexists | done..].
  - match goal with
    | |- context [createStartCheck port config ?w2] =>
        destruct (createStartCheck_always port (λ ev, isFailedPull ev = false)
                    ltac:(intros A e a; by destruct e) config w2)
          as (r & w' & evs & -> & [Ht _] & Hevs)
    end.
    eexists r, w', _. split; [done|]. rewrite Ht. cbn [trace].
    split; [by rewrite <- !app_assoc|]. simpl.
    rewrite (existsb_none _ _ Hevs). discriminate.
Qed.

End Actions.

Lemma no_config_no_job_witness :
  Run sim "ghost" (start_of stored) =
    Returns (Some "StoreMissing")
      {| outside := (stored : State sim);
         trace := trace sim (start_of stored) ++
                    [Did (GetDeploymentConfig "ghost") (Config_zero, Some "StoreMissing")] |} ∧
  RestartContainers sim "ghost" (start_of stored) =
    Returns (Errorf ("unable to get configuration for deployment " +:+ "ghost"))
      {| outside := (stored : State sim);
         trace := trace sim (start_of stored) ++
                    [Did (GetDeploymentConfig "ghost") (Config_zero, Some "StoreMissing")] |}.
Proof.
  apply (no_config_no_job sim "ghost" (start_of stored) Config_zero "StoreMissing" stored).
  reflexivity.
Defined.

Lemma start_stop_need_containers_witness :
  StartContainers_Run sim (StartContainersJobArgs "web") (start_of stored) =
    Returns (Errorf ("deployment " +:+ "web" +:+ " has 0 containers to start"))
      {| outside := (stored : State sim);
         trace := trace sim (start_of stored) ++
                    [Did (GetContainersByDeployment "web") ([], nil)] |} ∧
  StopContainers_Run sim (StopContainersJobArgs "web") (start_of stored) =
    Returns (Errorf ("deployment " +:+ "web" +:+ " has 0 containers to stop"))
      {| outside := (stored : State sim);
         trace := trace sim (start_of stored) ++
                    [Did (GetContainersByDeployment "web") ([], nil)] |}.
Proof.
  apply (start_stop_need_containers sim "web" (start_of stored) stored).
  reflexivity.
Defined.

(** ** What each phase of the Run job may call *)

Section Footprint.

Context (port : Port Effect).

Ltac tread :=
  repeat first
    [ apply always_ret
    | apply always_perform; intros; exact eq_refl
    | apply always_bind; [|intros]
    | match goal with
      | |- always _ _ (match ?x with _ => _ end) => destruct x
      end ].

Lemma createLoop_footprint config n : ∀ acc,
  always port (only (@runCall)) (createLoop port config n acc).
Proof. induction n as [|n IH]; intros acc; cbn [createLoop]; tread. apply IH. Qed.

Lemma startLoop_footprint cs : ∀ acc,
  always port (only (@runCall)) (startLoop port cs acc).
Proof. induction cs as [|c cs IH]; intros acc; cbn [startLoop]; tread. apply IH. Qed.

Lemma removeLoop_footprint complaint cs :
  always port (only (@finallyCall)) (rangeLoop port ContainerRemove complaint cs).
Proof. induction cs as [|c cs IH]; cbn [rangeLoop]; tread. apply IH. Qed.

(** Whatever the collaborators answer, each phase of the Run job returns,
    and calls only what is its own: the setup ensures the two collections
    and lists the containers; the run phase pulls, creates, starts and
    health-checks; the finalize phase removes; all three log.  So nothing
    is removed or stopped before the finalize phase (a generation that
    failed half-way is left as it is), and no phase touches the config or
    the queue. *)
Theorem Run_job_footprint (config : Config) (toRemove : list KraneContainer.t) :
  let args := RunDeploymentJobArgs config toRemove in
  always port (only (@setupCall)) (Run_Setup port args) ∧
  always port (only (@runCall)) (Run_Run port args) ∧
  always port (only (@finallyCall)) (Run_Finally port args).
Proof.
  intros args. split_and!.
  - unfold Run_Setup, args. tread.
  - unfold Run_Run, args, createStartCheck. tread.
    + apply createLoop_footprint.
    + apply startLoop_footprint.
  - apply removeLoop_footprint.
Qed.

End Footprint.

(** ** The runtime after a phase *)

Section RuntimeAfter.

Context (port : Port Effect) (view : State port → list Live).
Context (contract : RuntimeContract port view).

(** Starting the containers just created on top of [v]: [v] is as it was
    and the new containers are running. *)
Lemma started_generation (v : list Live) (cs : list KraneContainer.t) :
  Forall (λ c, KraneContainer.ID c ∉ ids v) cs →
  foldl (λ v c, setState (KraneContainer.ID c) running v)
    (v ++ (inState created <$> cs)) cs
  = v ++ (inState running <$> cs).
Proof.
  intros Hcs. rewrite Forall_forall in Hcs.
  rewrite foldl_setState, fmap_app. f_equal.
  - rewrite <- (list_fmap_id v) at 2. apply list_fmap_ext.
    intros i l Hl. apply list_elem_of_lookup_2 in Hl.
    destruct (decide (idOf l ∈ KraneContainer.ID <$> cs)) as [Hin|Hin];
      [|reflexivity].
    exfalso. apply list_elem_of_fmap in Hin as (c & Hid & Hc).
    apply (Hcs c Hc). unfold ids. apply list_elem_of_fmap. exists l.
    by rewrite <- Hid.
  - rewrite <- list_fmap_compose. apply list_fmap_ext.
    intros i c Hc. apply list_elem_of_lookup_2 in Hc. cbn [compose].
    destruct (decide (idOf (inState created c) ∈ KraneContainer.ID <$> cs))
      as [Hin|Hin]; [reflexivity|].
    exfalso. apply Hin. unfold idOf. simpl. apply list_elem_of_fmap. by exists c.
Qed.

(** A successful run phase only adds to the runtime: the containers that
    were there are all still there, in the state they were in, followed by
    the new generation, running, under the label of the config's name and
    under IDs none of the earlier containers has. *)
Theorem run_phase_adds_generation config toRemove (w1 w2 : World port) :
  Run_Run port (RunDeploymentJobArgs config toRemove) w1 = Returns nil w2 →
  ∃ cs,
    length cs = Z.to_nat (Scale config) ∧
    view (outside port w2) = view (outside port w1) ++ (inState running <$> cs) ∧
    Forall (λ c, KraneContainer.Deployment c = Name config ∧
                 KraneContainer.ID c ∉ ids (view (outside port w1))) cs.
Proof.
  intros Hrun. apply Run_Run_ok in Hrun as (cs & Hlen & [_ Hr1]).
  exists cs. split; [done|].
  unfold Run_Run_events, createStartCheck_events in Hr1.
  apply replay_app_inv in Hr1 as (sa & Hq1 & Hr1).
  apply (replay_quiet port view contract) in Hq1; [|reflexivity].
  apply replay_app_inv in Hr1 as (sb & Hc & Hr1).
  apply (replay_creates port view contract) in Hc as [Hvb Hfresh].
  apply replay_app_inv in Hr1 as (sc & Hq2 & Hr1).
  apply (replay_quiet port view contract) in Hq2; [|reflexivity].
  apply replay_app_inv in Hr1 as (sd & Hs & Hq3).
  apply (replay_starts port view contract) in Hs.
  apply (replay_quiet port view contract) in Hq3; [|reflexivity].
  rewrite Hq1 in Hvb, Hfresh.
  split; [|done].
  rewrite Hq3, Hs, Hq2, Hvb. apply started_generation.
  eapply Forall_impl; [exact Hfresh|]. by intros c [_ ?].
Qed.

Lemma Delete_Run_ok d (w w' : World port) :
  Delete_Run port (DeleteDeploymentJobArgs d) w = Returns nil w' →
  ∃ cs, extends port w
          ([Did (GetContainersByDeployment d) (cs, nil)] ++ calls ContainerRemove cs) w'.
Proof.
  intros H. unfold Delete_Run in H.
  call_in H as [cs err] E. pose proof (extends_step _ _ _ _ _ E) as Hext.
  destruct err as [e|]; [call_in H as [] E'; discriminate|].
  apply rangeLoop_ok in H. exists cs. by eapply extends_trans.
Qed.

(** After a successful run phase of Delete, the runtime holds no container
    labelled with the deployment, and what it holds are containers that
    were there before. *)
Theorem Delete_Run_empties_label d (w w' : World port) :
  Delete_Run port (DeleteDeploymentJobArgs d) w = Returns nil w' →
  labelled d (view (outside port w')) = [] ∧
  view (outside port w') ⊆ view (outside port w).
Proof.
  intros H. apply Delete_Run_ok in H as (cs & [_ Hr]).
  apply replay_app_inv in Hr as (s1 & Hl & Hr).
  simpl in Hl. destruct Hl as (s1' & Hans & ->).
  pose proof (list_reports _ _ contract _ _ _ _ Hans) as Hcs.
  pose proof (keeps_view port view contract (GetContainersByDeployment d) _ _ _
                eq_refl Hans) as Hkeep.
  apply (replay_removes port view contract) in Hr.
  rewrite Hr, foldl_without, Hkeep, Hcs. split.
  - unfold labelled at 1. rewrite list_filter_filter. apply filter_none.
    apply Forall_forall. intros l Hl [Hlabel Hkept]. apply Hkept.
    rewrite <- list_fmap_compose. apply list_elem_of_fmap. exists l.
    split; [done|]. by apply list_elem_of_filter.
  - intros l Hl. by apply list_elem_of_filter in Hl as [_ ?].
Qed.

End RuntimeAfter.

Lemma run_phase_adds_generation_witness :
  ∃ w2,
    Run_Run sim (RunDeploymentJobArgs web []) (start_of twoRunning) = Returns nil w2 ∧
    ∃ cs,
      length cs = Z.to_nat (Scale web) ∧
      live (outside sim w2) = live (outside sim (start_of twoRunning))
                                ++ (inState running <$> cs) ∧
      Forall (λ c, KraneContainer.Deployment c = Name web ∧
                   KraneContainer.ID c ∉ ids (live (outside sim (start_of twoRunning)))) cs.
Proof.
  eexists. split; [lazy; reflexivity|].
  eapply (run_phase_adds_generation sim live sim_contract web []
            (start_of twoRunning)).
  lazy; reflexivity.
Defined.

Lemma Delete_Run_empties_label_witness :
  ∃ w',
    Delete_Run sim (DeleteDeploymentJobArgs "web") (start_of twoRunning) = Returns nil w' ∧
    labelled "web" (live (outside sim w')) = [] ∧
    live (outside sim w') ⊆ live (outside sim (start_of twoRunning)).
Proof.
  eexists. split; [lazy; reflexivity|].
  eapply (Delete_Run_empties_label sim live sim_contract "web" (start_of twoRunning)).
  lazy; reflexivity.
Defined.

End DeploymentMore.

(* ===================================================================== *)
(** * Properties of middlewares.go and api.go                             *)
(* ===================================================================== *)

Module MiddlewaresFacts.

Import Middlewares.

Lemma list_ascii_append s1 s2 :
  String.list_ascii_of_string (s1 +:+ s2) =
    String.list_ascii_of_string s1 ++ String.list_ascii_of_string s2.
Proof. induction s1 as [|a s1 IH]; [done|]. simpl. by rewrite IH. Qed.

Lemma append_cancel_r s1 s2 t : s1 +:+ t = s2 +:+ t → s1 = s2.
Proof.
  intros H. apply (f_equal String.list_ascii_of_string) in H.
  rewrite !list_ascii_append in H. apply app_inv_tail in H.
  apply (f_equal String.string_of_list_ascii) in H.
  by rewrite !String.string_of_list_ascii_of_string in H.
Qed.

Lemma routerKey_inj d1 d2 : routerKey d1 = routerKey d2 → d1 = d2.
Proof.
  unfold routerKey. intros H. apply String.app_inj in H.
  by apply append_cancel_r in H.
Qed.

(** The labels of a deployment, read back: the router key of the
    deployment itself and the three keys of the redirect scheme are there
    with their values; and a label found under the router key of any
    deployment [d'] is the redirect middleware, and [d'] is the deployment. *)
Theorem RedirectToHTTPSLabels_lookup (deployment : string) :
  RedirectToHTTPSLabels deployment !! routerKey deployment
    = Some "redirect-to-https@docker" ∧
  RedirectToHTTPSLabels deployment
    !! "traefik.http.middlewares.redirect-to-https.redirectscheme.scheme" = Some "https" ∧
  RedirectToHTTPSLabels deployment
    !! "traefik.http.middlewares.redirect-to-https.redirectscheme.port" = Some "443" ∧
  RedirectToHTTPSLabels deployment
    !! "traefik.http.middlewares.redirect-to-https.redirectscheme.permanent" = Some "true" ∧
  size (RedirectToHTTPSLabels deployment) = 4%nat ∧
  ∀ d' v, RedirectToHTTPSLabels deployment !! routerKey d' = Some v →
          d' = deployment ∧ v = "redirect-to-https@docker".
Proof.
  unfold RedirectToHTTPSLabels.
  assert (∀ d, routerKey d ≠ "traefik.http.middlewares.redirect-to-https.redirectscheme.scheme")
    as H1 by (intros d; unfold routerKey; simpl; discriminate).
  assert (∀ d, routerKey d ≠ "traefik.http.middlewares.redirect-to-https.redirectscheme.port")
    as H2 by (intros d; unfold routerKey; simpl; discriminate).
  assert (∀ d, routerKey d ≠ "traefik.http.middlewares.redirect-to-https.redirectscheme.permanent")
    as H3 by (intros d; unfold routerKey; simpl; discriminate).
  split_and!.
  - rewrite !lookup_insert_ne by (apply not_eq_sym; auto). apply lookup_insert_eq.
  - rewrite !lookup_insert_ne by discriminate. apply lookup_insert_eq.
  - rewrite lookup_insert_ne by discriminate. apply lookup_insert_eq.
  - apply lookup_insert_eq.
  - rewrite !map_size_insert_None, map_size_empty; [done|..];
      repeat (rewrite lookup_insert_ne
                by (first [discriminate | apply not_eq_sym; auto]));
      apply lookup_empty.
  - intros d' v. rewrite !lookup_insert_ne by (apply not_eq_sym; auto).
    destruct (decide (routerKey deployment = routerKey d')) as [Heq|Hne].
    + rewrite Heq, lookup_insert_eq. intros [= <-].
      split; [|done]. symmetry. by apply routerKey_inj.
    + rewrite lookup_insert_ne by done. by rewrite lookup_empty.
Qed.

(** The labels of two deployments never contradict each other: a key both
    maps hold has the same value in both, so the maps can be merged in
    either order. *)
Theorem RedirectToHTTPSLabels_agree (d1 d2 k v1 v2 : string) :
  RedirectToHTTPSLabels d1 !! k = Some v1 →
  RedirectToHTTPSLabels d2 !! k = Some v2 →
  v1 = v2.
Proof.
  unfold RedirectToHTTPSLabels.
  rewrite !lookup_insert. repeat case_decide; simplify_eq; try done;
    rewrite ?lookup_empty; congruence.
Qed.

Lemma RedirectToHTTPSLabels_agree_witness :
  RedirectToHTTPSLabels "web"
    !! "traefik.http.middlewares.redirect-to-https.redirectscheme.scheme" = Some "https" ∧
  RedirectToHTTPSLabels "api"
    !! "traefik.http.middlewares.redirect-to-https.redirectscheme.scheme" = Some "https" ∧
  "https" = "https".
Proof.
  split; [vm_compute; reflexivity|]. split; [vm_compute; reflexivity|].
  apply (RedirectToHTTPSLabels_agree "web" "api"
           "traefik.http.middlewares.redirect-to-https.redirectscheme.scheme").
  - vm_compute; reflexivity.
  - vm_compute; reflexivity.
Defined.

End MiddlewaresFacts.

Module ApiFacts.

Import Api.

Lemma foldl_Use mws : ∀ r,
  middlewares (foldl Use r mws) = middlewares r ++ mws ∧
  routes (foldl Use r mws) = routes r.
Proof.
  induction mws as [|mw mws IH]; intros r; simpl.
  - by rewrite app_nil_r.
  - destruct (IH (Use r mw)) as [-> ->]. simpl. by rewrite <- app_assoc.
Qed.

(** [withRoute] followed by [Methods] adds one route, with the given path,
    handler and methods, after the routes the router has; the middlewares
    given for the route are appended to the middlewares of the router
    itself, so they stay on the router for every route registered on it. *)
Theorem withRoute_registers_on_router (r : Router) (p : string) (h : Controller)
    (mws : list Middleware) (ms : list string) :
  middlewares (Methods (withRoute r p h mws) ms) = middlewares r ++ mws ∧
  routes (Methods (withRoute r p h mws) ms) =
    routes r ++ [{| path := p; handler := h; methods := ms |}].
Proof.
  unfold withRoute, HandleFunc, Methods. destruct (foldl_Use mws r) as [Hm Hr].
  simpl. split; [done|]. rewrite Hr.
  rewrite <- (Nat.add_0_r (length (routes r))). by rewrite alter_app_r.
Qed.

(** The route table of [withRoutes]: the open subrouter has four routes and
    no middleware; the authenticated subrouter has ten routes and, since
    every [withRoute] call registers its middleware on the subrouter, ten
    copies of [AuthSessionMiddleware]; every route answers exactly one
    method, and no subrouter has two routes with the same path and method. *)
Theorem withRoutes_table :
  middlewares withRoutes.1 = [] ∧
  length (routes withRoutes.1) = 4%nat ∧
  middlewares withRoutes.2 = replicate 10 AuthSessionMiddleware ∧
  length (routes withRoutes.2) = 10%nat ∧
  Forall (λ rt, length (methods rt) = 1%nat) (routes withRoutes.1 ++ routes withRoutes.2) ∧
  NoDup ((λ rt, (path rt, methods rt)) <$> routes withRoutes.1) ∧
  NoDup ((λ rt, (path rt, methods rt)) <$> routes withRoutes.2).
Proof.
  split_and!; try (vm_compute; reflexivity).
  - vm_compute. repeat constructor.
  - apply (bool_decide_unpack _). vm_compute. exact I.
  - apply (bool_decide_unpack _). vm_compute. exact I.
Qed.

End ApiFacts.

Module ExistFacts.

Import Effects EffectsFacts Deployment DeploymentExist DeploymentRuns DeploymentFacts.

(** [Exist] makes one config lookup and nothing else; it says true exactly
    when the lookup succeeded with a config that is not empty; and whenever
    it says true, [Run] and [RestartContainers] started from the same state
    return nil (their job is handed over). *)
Theorem Exist_true_means_accepted (port : Port Effect) (Empty : Config → bool)
    (d : string) (w w1 : World port) (b : bool) :
  Exist port Empty d w = Returns b w1 →
  ∃ cfg err,
    (answer port _ (GetDeploymentConfig d) (outside port w)).1 = (cfg, err) ∧
    trace port w1 = trace port w ++ [Did (GetDeploymentConfig d) (cfg, err)] ∧
    b = match err with Some _ => false | None => negb (Empty cfg) end ∧
    (b = true →
     (∃ w', Run port d w = Returns nil w') ∧
     (∃ w', RestartContainers port d w = Returns nil w')).
Proof.
  unfold Exist, Run, RestartContainers. rewrite !bind_perform.
  destruct (answer port _ (GetDeploymentConfig d) (outside port w)) as [[cfg err] s1].
  cbn [fst snd]. intros H. exists cfg, err. split; [done|].
  destruct err as [e|].
  - injection H as <- <-. split_and!; done.
  - assert (b = negb (Empty cfg) ∧
            trace port w1 = trace port w ++ [Did (GetDeploymentConfig d) (cfg, nil)])
      as [-> Ht] by (destruct (Empty cfg); injection H as <- <-; done).
    split_and!; [done..|]. intros _.
    split; (call as ?; call as ?; call as []; by eexists).
Qed.

Lemma Exist_true_means_accepted_witness :
  ∃ w1 cfg err,
    Exist sim (λ c, String.eqb (Name c) "") "web" (start_of stored) = Returns true w1 ∧
    (answer sim _ (GetDeploymentConfig "web") (outside sim (start_of stored))).1
      = (cfg, err) ∧
    trace sim w1 = trace sim (start_of stored) ++ [Did (GetDeploymentConfig "web") (cfg, err)] ∧
    true = match err with Some _ => false | None => negb (String.eqb (Name cfg) "") end ∧
    (true = true →
     (∃ w', Run sim "web" (start_of stored) = Returns nil w') ∧
     (∃ w', RestartContainers sim "web" (start_of stored) = Returns nil w')).
Proof.
  eexists. 
  assert (Exist sim (λ c, String.eqb (Name c) "") "web" (start_of stored)
          = Returns true
              {| outside := (stored : State sim);
                 trace := [Did (GetDeploymentConfig "web") (web, nil)] |}) as H
    by (vm_compute; reflexivity).
  destruct (Exist_true_means_accepted sim (λ c, String.eqb (Name c) "") "web"
              (start_of stored) _ true H) as (cfg & err & H1 & H2 & H3 & H4).
  exists cfg, err. split; [exact H|]. split_and!; assumption.
Defined.

End ExistFacts.
